(** * Badge generators of [source/badges.js]

    A shallow embedding of the badge catalogue: every exported generator is
    a function from a configuration object to a completion, which is either
    the returned markup or the thrown exception.  The JavaScript values the
    generators inspect are embedded as the inductive type [value]; an object
    read by destructuring is a finite map from property names to values. *)

From Stdlib Require Import Ascii String List Bool NArith.
From stdpp Require Import base strings gmap.

Open Scope string_scope.

(** ** JavaScript values *)

(** Strings are sequences of code units; a character of a Rocq [string]
    stands for the code unit with the same number, so the embedding covers
    the strings whose code units lie below 256.  [VObject] is a plain data
    object, given by its own enumerable properties in the order
    [Object.keys] reports them (for names that are not array indices, the
    order in which they were inserted). *)
#[warnings="-register-all"]
Inductive value : Type :=
| VUndefined
| VNull
| VBoolean (b : bool)
| VString (s : string)
| VObject (props : list (string * value)).

(** A configuration object; the order of its properties is never observed,
    all reads go through destructuring. *)
Abbreviation object := (gmap string value).

(** The environment [process.env] maps variable names to strings. *)
Abbreviation environment := (gmap string string).

(** Reading a property: a missing property reads as [undefined]. *)
Definition get (o : object) (k : string) : value :=
  default VUndefined (o !! k).

Definition getenv (env : environment) (k : string) : value :=
  match env !! k with
  | Some s => VString s
  | None => VUndefined
  end.

(** ToBoolean, as applied by [!x], [x ? _ : _], [x && _] and [x || _]. *)
Definition truthy (v : value) : bool :=
  match v with
  | VUndefined => false
  | VNull => false
  | VBoolean b => b
  | VString EmptyString => false
  | VString (String _ _) => true
  | VObject _ => true
  end.

(** [a || b] *)
Definition or_else (a b : value) : value :=
  if truthy a then a else b.

(** [typeof v] *)
Definition typeof (v : value) : string :=
  match v with
  | VUndefined => "undefined"
  | VNull => "object"
  | VBoolean _ => "boolean"
  | VString _ => "string"
  | VObject _ => "object"
  end.

(** ToString, as applied to the substitutions of a template literal.  A
    plain object converts through the inherited [Object.prototype.toString]. *)
Definition toString (v : value) : string :=
  match v with
  | VUndefined => "undefined"
  | VNull => "null"
  | VBoolean true => "true"
  | VBoolean false => "false"
  | VString s => s
  | VObject _ => "[object Object]"
  end.

(** The characters that cannot be written inside a string literal here. *)
Definition dq : string := String "034"%char EmptyString.
Definition nl : string := String "010"%char EmptyString.
Definition tab : string := String "009"%char EmptyString.

(** ** Exceptions and completions *)

Inductive exception : Type :=
| Error (message : string)
| TypeError (message : string).

Inductive completion : Type :=
| Return (markup : string)
| Throw (e : exception).

(** ** Built-in functions used by the generators *)

Definition hex_digit (n : N) : ascii :=
  match n with
  | 0 => "0" | 1 => "1" | 2 => "2" | 3 => "3" | 4 => "4" | 5 => "5"
  | 6 => "6" | 7 => "7" | 8 => "8" | 9 => "9" | 10 => "A" | 11 => "B"
  | 12 => "C" | 13 => "D" | 14 => "E" | _ => "F"
  end%N%char.

(** [%XX] with two upper-case hexadecimal digits. *)
Definition percent (n : N) (rest : string) : string :=
  String "%"%char (String (hex_digit (n / 16)) (String (hex_digit (n mod 16)) rest)).

Definition is_digit (n : N) : bool := (48 <=? n)%N && (n <=? 57)%N.
Definition is_upper (n : N) : bool := (65 <=? n)%N && (n <=? 90)%N.
Definition is_lower (n : N) : bool := (97 <=? n)%N && (n <=? 122)%N.
Definition is_alnum (n : N) : bool := is_digit n || is_upper n || is_lower n.

(** The code units the global [escape] leaves alone: letters, digits and
    [@*_+-./]. *)
Definition escape_keeps (n : N) : bool :=
  is_alnum n ||
  match n with
  | 64 | 42 | 95 | 43 | 45 | 46 | 47 => true
  | _ => false
  end%N.

Fixpoint escape_string (s : string) : string :=
  match s with
  | EmptyString => EmptyString
  | String c rest =>
      let n := N_of_ascii c in
      if escape_keeps n then String c (escape_string rest)
      else percent n (escape_string rest)
  end.

(** The global function [escape (v)] of the language: the argument is
    converted to a string first. *)
Definition escape (v : value) : string := escape_string (toString v).

(** ** The shared renderer *)

(** [badge ({ image, alt, url, title })] *)
Definition badge (opts : object) : completion :=
  let image := get opts "image" in
  let alt := get opts "alt" in
  let url := get opts "url" in
  let title := get opts "title" in
  if negb (truthy image) then Throw (Error "image is missing") else
  let result :=
    if truthy alt
    then "<img src=" ++ dq ++ toString image ++ dq ++ " alt=" ++ dq ++ toString alt ++ dq ++ " />"
    else "<img src=" ++ dq ++ toString image ++ dq ++ " />" in
  let result :=
    if truthy url
    then (if truthy title
          then "<a href=" ++ dq ++ toString url ++ dq ++ " title=" ++ dq ++ toString title ++ dq ++ ">"
          else "<a href=" ++ dq ++ toString url ++ dq ++ ">") ++ result ++ "</a>"
    else result in
  Return result.

(** The object literal [{ image, alt, url, title }] handed to [badge]. *)
Definition descriptor (image alt url title : value) : object :=
  {[ "image" := image; "alt" := alt; "url" := url; "title" := title ]}.

(** ** Custom badges *)

(** [shields ({ left, right, color = 'yellow', alt, url, title })]; the
    default applies only when the property reads as [undefined]. *)
Definition shields (opts : object) : completion :=
  let left := get opts "left" in
  let right := get opts "right" in
  let color :=
    match get opts "color" with
    | VUndefined => VString "yellow"
    | v => v
    end in
  let alt := get opts "alt" in
  let url := get opts "url" in
  let title := get opts "title" in
  if negb (truthy left) then Throw (Error "left is missing") else
  if negb (truthy right) then Throw (Error "right is missing") else
  let image := "https://img.shields.io/badge/" ++ toString left ++ "-" ++ toString right ++ "-" ++ toString color ++ ".svg" in
  badge (descriptor (VString image) alt url title).

(** ** Development badges *)

Definition npmversion (opts : object) : completion :=
  let npmPackageName := get opts "npmPackageName" in
  if negb (truthy npmPackageName) then Throw (Error "npmPackageName is missing") else
  let image := "https://img.shields.io/npm/v/" ++ toString npmPackageName ++ ".svg" in
  let url := "https://npmjs.org/package/" ++ toString npmPackageName in
  let alt := "NPM version" in
  let title := "View this project on NPM" in
  badge (descriptor (VString image) (VString alt) (VString url) (VString title)).

Definition npmdownloads (opts : object) : completion :=
  let npmPackageName := get opts "npmPackageName" in
  if negb (truthy npmPackageName) then Throw (Error "npmPackageName is missing") else
  let image := "https://img.shields.io/npm/dm/" ++ toString npmPackageName ++ ".svg" in
  let url := "https://npmjs.org/package/" ++ toString npmPackageName in
  let alt := "NPM downloads" in
  let title := "View this project on NPM" in
  badge (descriptor (VString image) (VString alt) (VString url) (VString title)).

Definition daviddm (opts : object) : completion :=
  let githubSlug := get opts "githubSlug" in
  if negb (truthy githubSlug) then Throw (Error "githubSlug is missing") else
  let image := "https://img.shields.io/david/" ++ toString githubSlug ++ ".svg" in
  let url := "https://david-dm.org/" ++ toString githubSlug in
  let alt := "Dependency Status" in
  let title := "View the status of this project's dependencies on DavidDM" in
  badge (descriptor (VString image) (VString alt) (VString url) (VString title)).

Definition daviddmdev (opts : object) : completion :=
  let githubSlug := get opts "githubSlug" in
  if negb (truthy githubSlug) then Throw (Error "githubSlug is missing") else
  let image := "https://img.shields.io/david/dev/" ++ toString githubSlug ++ ".svg" in
  let url := "https://david-dm.org/" ++ toString githubSlug ++ "#info=devDependencies" in
  let alt := "Dev Dependency Status" in
  let title := "View the status of this project's development dependencies on DavidDM" in
  badge (descriptor (VString image) (VString alt) (VString url) (VString title)).

(** *** [querystring.stringify] *)

(** Modelled from the spec: [querystring.stringify] is a library function of
    Node.js, required by the source and absent from the repository.  The
    specification has a mapping serialized into [key=value&...] form, keys
    in insertion order, values escaped by the standard query-string
    escaping.  The escaping itself, its use on the keys as well, and the
    treatment of values that are not strings follow the library. *)

(** The characters [querystring.escape] leaves alone: letters, digits and
    [!'()*-._~]. *)
Definition qs_keeps (n : N) : bool :=
  is_alnum n ||
  match n with
  | 33 | 39 | 40 | 41 | 42 | 45 | 46 | 95 | 126 => true
  | _ => false
  end%N.

(** Modelled from the spec: [querystring.escape], the percent-encoding of
    the UTF-8 form of the string; a code unit from 128 to 255 takes two
    bytes. *)
Fixpoint qs_escape (s : string) : string :=
  match s with
  | EmptyString => EmptyString
  | String c rest =>
      let n := N_of_ascii c in
      if (n <? 128)%N then
        if qs_keeps n then String c (qs_escape rest)
        else percent n (qs_escape rest)
      else percent (192 + n / 64) (percent (128 + n mod 64) (qs_escape rest))
  end.

(** Modelled from the spec: how [stringify] writes one property value;
    strings are escaped, booleans are spelled out, everything else is
    written as nothing. *)
Definition qs_primitive (v : value) : string :=
  match v with
  | VString s => qs_escape s
  | VBoolean true => "true"
  | VBoolean false => "false"
  | _ => EmptyString
  end.

(** Modelled from the spec: the loop of [stringify] over the keys, which
    writes [key=value] pairs and puts [&] between them. *)
Fixpoint qs_fields (fields : string) (props : list (string * value)) : string :=
  match props with
  | [] => fields
  | (k, v) :: rest =>
      let ks := qs_escape k ++ "=" in
      let fields := if truthy (VString fields) then fields ++ "&" else fields in
      qs_fields (fields ++ ks ++ qs_primitive v) rest
  end.

(** Modelled from the spec: [querystring.stringify (obj)]; anything that
    is not an object gives the empty string. *)
Definition querystring_stringify (obj : value) : string :=
  match obj with
  | VObject props => qs_fields EmptyString props
  | _ => EmptyString
  end.

(** [nodeico ({ npmPackageName, nodeicoQueryString })] *)
Definition nodeico (opts : object) : completion :=
  let npmPackageName := get opts "npmPackageName" in
  let nodeicoQueryString := get opts "nodeicoQueryString" in
  if negb (truthy npmPackageName) then Throw (Error "npmPackageName is missing") else
  if truthy nodeicoQueryString
     && negb (String.eqb (typeof nodeicoQueryString) "string")
     && negb (String.eqb (typeof nodeicoQueryString) "object")
  then Throw (Error "nodeicoQueryString must be a string or an object") else
  let url := "https://www.npmjs.com/package/" ++ toString npmPackageName in
  let alt := "Nodei.co badge" in
  let title := "Nodei.co badge" in
  let image := "https://nodei.co/npm/" ++ toString npmPackageName ++ ".png" in
  let query :=
    if String.eqb (typeof nodeicoQueryString) "object"
    then VString (querystring_stringify nodeicoQueryString)
    else nodeicoQueryString in
  let image := if truthy query then image ++ "?" ++ toString query else image in
  badge (descriptor (VString image) (VString alt) (VString url) (VString title)).

(** ** Testing badges *)

(** [saucelabsbm ({ saucelabsUsername, saucelabsAuthToken })] *)
Definition saucelabsbm (env : environment) (opts : object) : completion :=
  let saucelabsUsername := get opts "saucelabsUsername" in
  let saucelabsAuthToken := get opts "saucelabsAuthToken" in
  if negb (truthy saucelabsUsername) then Throw (Error "saucelabsUsername is missing") else
  let saucelabsAuthToken := or_else saucelabsAuthToken (getenv env "SAUCELABS_AUTH_TOKEN") in
  if negb (truthy saucelabsAuthToken) then Throw (Error "saucelabsAuthToken is missing") else
  let image := "https://saucelabs.com/browser-matrix/" ++ toString saucelabsUsername ++ ".svg?auth=" ++ escape saucelabsAuthToken in
  let url := "https://saucelabs.com/u/" ++ toString saucelabsUsername in
  let alt := "Sauce Labs Browser Matrix" in
  let title := "Check this project's browser tests on Sauce Labs" in
  badge (descriptor (VString image) (VString alt) (VString url) (VString title)).

(** [saucelabs ({ saucelabsUsername, saucelabsAuthToken })] *)
Definition saucelabs (env : environment) (opts : object) : completion :=
  let saucelabsUsername := get opts "saucelabsUsername" in
  let saucelabsAuthToken := get opts "saucelabsAuthToken" in
  if negb (truthy saucelabsUsername) then Throw (Error "saucelabsUsername is missing") else
  let saucelabsAuthToken := or_else saucelabsAuthToken (getenv env "SAUCELABS_AUTH_TOKEN") in
  if negb (truthy saucelabsAuthToken) then Throw (Error "saucelabsAuthToken is missing") else
  let image := "https://saucelabs.com/browser-matrix/" ++ toString saucelabsUsername ++ ".svg?auth=" ++ escape saucelabsAuthToken in
  let url := "https://saucelabs.com/u/" ++ toString saucelabsUsername in
  let alt := "Sauce Labs Browser Matrix" in
  let title := "Check this project's browser tests on Sauce Labs" in
  badge (descriptor (VString image) (VString alt) (VString url) (VString title)).

Definition travisci (opts : object) : completion :=
  let githubSlug := get opts "githubSlug" in
  if negb (truthy githubSlug) then Throw (Error "githubSlug is missing") else
  let image := "https://img.shields.io/travis/" ++ toString githubSlug ++ "/master.svg" in
  let url := "http://travis-ci.org/" ++ toString githubSlug in
  let alt := "Travis CI Build Status" in
  let title := "Check this project's build status on TravisCI" in
  badge (descriptor (VString image) (VString alt) (VString url) (VString title)).

(** [codeship ({ codeshipProjectUUID, codeshipProjectID })] *)
Definition codeship (opts : object) : completion :=
  let codeshipProjectUUID := get opts "codeshipProjectUUID" in
  let codeshipProjectID := get opts "codeshipProjectID" in
  if negb (truthy codeshipProjectUUID) then Throw (Error "codeshipProjectUUID is missing") else
  if negb (truthy codeshipProjectID) then Throw (Error "codeshipProjectID is missing") else
  let image := "https://img.shields.io/codeship/" ++ toString codeshipProjectUUID ++ "/master.svg" in
  let url := "https://www.codeship.io/projects/" ++ toString codeshipProjectID in
  let alt := "Codeship Status" in
  let title := "Check this project's status on Codeship" in
  badge (descriptor (VString image) (VString alt) (VString url) (VString title)).

Definition coveralls (opts : object) : completion :=
  let githubSlug := get opts "githubSlug" in
  if negb (truthy githubSlug) then Throw (Error "githubSlug is missing") else
  let image := "https://img.shields.io/coveralls/" ++ toString githubSlug ++ ".svg" in
  let url := "https://coveralls.io/r/" ++ toString githubSlug in
  let alt := "Coveralls Coverage Status" in
  let title := "View this project's coverage on Coveralls" in
  badge (descriptor (VString image) (VString alt) (VString url) (VString title)).

Definition codeclimate (opts : object) : completion :=
  let githubSlug := get opts "githubSlug" in
  if negb (truthy githubSlug) then Throw (Error "githubSlug is missing") else
  let image := "https://img.shields.io/codeclimate/github/" ++ toString githubSlug ++ ".svg" in
  let url := "https://codeclimate.com/github/" ++ toString githubSlug in
  let alt := "Code Climate Rating" in
  let title := "View this project's rating on Code Climate" in
  badge (descriptor (VString image) (VString alt) (VString url) (VString title)).

Definition bithound (opts : object) : completion :=
  let githubSlug := get opts "githubSlug" in
  if negb (truthy githubSlug) then Throw (Error "githubSlug is missing") else
  let image := "https://bithound.io/github/" ++ toString githubSlug ++ "/badges/score.svg" in
  let url := "https://bithound.io/github/" ++ toString githubSlug in
  let alt := "BitHound Score" in
  let title := "View this project's score on BitHound" in
  badge (descriptor (VString image) (VString alt) (VString url) (VString title)).

Definition waffle (opts : object) : completion :=
  let githubSlug := get opts "githubSlug" in
  if negb (truthy githubSlug) then Throw (Error "githubSlug is missing") else
  let label := VString "ready" in
  let image := "https://badge.waffle.io/" ++ toString githubSlug ++ ".png?label=" ++ escape label in
  let url := "http://waffle.io/" ++ toString githubSlug in
  let alt := "Stories in Ready" in
  let title := "View this project's stories on Waffle.io" in
  badge (descriptor (VString image) (VString alt) (VString url) (VString title)).

(** ** Funding badges *)

(** The outcome of a block that either assigns the link or throws. *)
Inductive resolved : Type :=
| Link (url : value)
| Missing (message : string).

(** [sixtydevstips ({ sixtydevstipsID, sixtydevstipsURL })] *)
Definition sixtydevstips (opts : object) : completion :=
  let sixtydevstipsID := get opts "sixtydevstipsID" in
  let sixtydevstipsURL := get opts "sixtydevstipsURL" in
  let check :=
    if negb (truthy sixtydevstipsURL) then
      if negb (truthy sixtydevstipsID) then Missing "sixtydevstipsID is missing"
      else Link (VString ("https://tips.60devs.com/tip/" ++ toString sixtydevstipsID))
    else Link sixtydevstipsURL in
  match check with
  | Missing message => Throw (Error message)
  | Link sixtydevstipsURL =>
      let image := "https://img.shields.io/badge/60devs-donate-yellow.svg" in
      let url := sixtydevstipsURL in
      let alt := "60devs tips donate button" in
      let title := "Donate to this project using 60devs tips" in
      badge (descriptor (VString image) (VString alt) url (VString title))
  end.

(** [patreon ({ patreonUsername, patreonURL })] *)
Definition patreon (opts : object) : completion :=
  let patreonUsername := get opts "patreonUsername" in
  let patreonURL := get opts "patreonURL" in
  let check :=
    if negb (truthy patreonURL) then
      if negb (truthy patreonUsername) then Missing "patreonUsername is missing"
      else Link (VString ("https://patreon.com/" ++ toString patreonUsername))
    else Link patreonURL in
  match check with
  | Missing message => Throw (Error message)
  | Link patreonURL =>
      let image := "https://img.shields.io/badge/patreon-donate-yellow.svg" in
      let url := patreonURL in
      let alt := "Patreon donate button" in
      let title := "Donate to this project using Patreon" in
      badge (descriptor (VString image) (VString alt) url (VString title))
  end.

(** [opencollective ({ opencollectiveUsername, opencollectiveURL })] *)
Definition opencollective (opts : object) : completion :=
  let opencollectiveUsername := get opts "opencollectiveUsername" in
  let opencollectiveURL := get opts "opencollectiveURL" in
  let check :=
    if negb (truthy opencollectiveURL) then
      if negb (truthy opencollectiveUsername) then Missing "opencollectiveUsername is missing"
      else Link (VString ("https://opencollective.com/" ++ toString opencollectiveUsername))
    else Link opencollectiveURL in
  match check with
  | Missing message => Throw (Error message)
  | Link opencollectiveURL =>
      let image := "https://img.shields.io/badge/open%20collective-donate-yellow.svg" in
      let url := opencollectiveURL in
      let alt := "Open Collective donate button" in
      let title := "Donate to this project using Open Collective" in
      badge (descriptor (VString image) (VString alt) url (VString title))
  end.

(** [gratipay ({ gratipayUsername, gratipayURL })] *)
Definition gratipay (opts : object) : completion :=
  let gratipayUsername := get opts "gratipayUsername" in
  let gratipayURL := get opts "gratipayURL" in
  let check :=
    if negb (truthy gratipayURL) then
      if negb (truthy gratipayUsername) then Missing "gratipayUsername is missing"
      else Link (VString ("https://gratipay.com/" ++ toString gratipayUsername))
    else Link gratipayURL in
  match check with
  | Missing message => Throw (Error message)
  | Link gratipayURL =>
      let image := "https://img.shields.io/badge/gratipay-donate-yellow.svg" in
      let url := gratipayURL in
      let alt := "Gratipay donate button" in
      let title := "Donate weekly to this project using Gratipay" in
      badge (descriptor (VString image) (VString alt) url (VString title))
  end.

(** [flattr ({ flattrCode, flattrUsername, flattrURL })] *)
Definition flattr (opts : object) : completion :=
  let flattrCode := get opts "flattrCode" in
  let flattrUsername := get opts "flattrUsername" in
  let flattrURL := get opts "flattrURL" in
  let check :=
    if negb (truthy flattrURL) then
      if truthy flattrUsername
      then Link (VString ("https://flattr.com/profile/" ++ toString flattrUsername))
      else if truthy flattrCode
      then Link (VString ("https://flattr.com/thing/" ++ toString flattrCode))
      else Missing "flattrUsername/flattrCode is missing"
    else Link flattrURL in
  match check with
  | Missing message => Throw (Error message)
  | Link flattrURL =>
      let image := "https://img.shields.io/badge/flattr-donate-yellow.svg" in
      let url := flattrURL in
      let alt := "Flattr donate button" in
      let title := "Donate to this project using Flattr" in
      badge (descriptor (VString image) (VString alt) url (VString title))
  end.

(** [paypal ({ paypalURL, paypalButtonID, paypalUsername })] *)
Definition paypal (opts : object) : completion :=
  let paypalURL := get opts "paypalURL" in
  let paypalButtonID := get opts "paypalButtonID" in
  let paypalUsername := get opts "paypalUsername" in
  let check :=
    if negb (truthy paypalURL) then
      if truthy paypalButtonID
      then Link (VString ("https://www.paypal.com/cgi-bin/webscr?cmd=_s-xclick&amp;hosted_button_id=" ++ escape paypalButtonID))
      else if truthy paypalUsername
      then Link (VString ("https://paypal.me/" ++ toString paypalUsername))
      else Missing "paypalURL, paypalButtonID, or paypalUsername is missing, at least one must exist"
    else Link paypalURL in
  match check with
  | Missing message => Throw (Error message)
  | Link paypalURL =>
      let image := "https://img.shields.io/badge/paypal-donate-yellow.svg" in
      let url := paypalURL in
      let alt := "PayPal donate button" in
      let title := "Donate to this project using Paypal" in
      badge (descriptor (VString image) (VString alt) url (VString title))
  end.

(** [crypto ({ cryptoURL, bitcoinURL })] *)
Definition crypto (opts : object) : completion :=
  let cryptoURL := get opts "cryptoURL" in
  let bitcoinURL := get opts "bitcoinURL" in
  let url := or_else cryptoURL bitcoinURL in
  if negb (truthy url) then Throw (Error "cryptoURL is missing") else
  let image := "https://img.shields.io/badge/crypto-donate-yellow.svg" in
  let alt := "crypto donate button" in
  let title := "Donate to this project using Cryptocurrency" in
  badge (descriptor (VString image) (VString alt) url (VString title)).

(** [bitcoin (opts)] hands its argument to [crypto]. *)
Definition bitcoin (opts : object) : completion :=
  crypto opts.

Definition wishlist (opts : object) : completion :=
  let wishlistURL := get opts "wishlistURL" in
  if negb (truthy wishlistURL) then Throw (Error "wishlistURL is missing") else
  let image := "https://img.shields.io/badge/wishlist-donate-yellow.svg" in
  let url := wishlistURL in
  let alt := "Wishlist browse button" in
  let title := "Buy an item on our wishlist for us" in
  badge (descriptor (VString image) (VString alt) url (VString title)).

(** [buymeacoffee ({ buymeacoffeeUsername, buymeacoffeeURL })] *)
Definition buymeacoffee (opts : object) : completion :=
  let buymeacoffeeUsername := get opts "buymeacoffeeUsername" in
  let buymeacoffeeURL := get opts "buymeacoffeeURL" in
  let check :=
    if negb (truthy buymeacoffeeURL) then
      if negb (truthy buymeacoffeeUsername) then Missing "buymeacoffeeUsername is missing"
      else Link (VString ("https://buymeacoffee.com/" ++ toString buymeacoffeeUsername))
    else Link buymeacoffeeURL in
  match check with
  | Missing message => Throw (Error message)
  | Link buymeacoffeeURL =>
      let image := "https://img.shields.io/badge/buy%20me%20a%20coffee-donate-yellow.svg" in
      let url := buymeacoffeeURL in
      let alt := "Buy Me A Coffee donate button" in
      let title := "Donate to this project using Buy Me A Coffee" in
      badge (descriptor (VString image) (VString alt) url (VString title))
  end.

(** [liberapay ({ liberapayUsername, liberapayURL })] *)
Definition liberapay (opts : object) : completion :=
  let liberapayUsername := get opts "liberapayUsername" in
  let liberapayURL := get opts "liberapayURL" in
  let check :=
    if negb (truthy liberapayURL) then
      if negb (truthy liberapayUsername) then Missing "liberapayUsername is missing"
      else Link (VString ("https://liberapay.com/" ++ toString liberapayUsername))
    else Link liberapayURL in
  match check with
  | Missing message => Throw (Error message)
  | Link liberapayURL =>
      let image := "https://img.shields.io/badge/liberapay-donate-yellow.svg" in
      let url := liberapayURL in
      let alt := "Liberapay donate button" in
      let title := "Donate to this project using Liberapay" in
      badge (descriptor (VString image) (VString alt) url (VString title))
  end.

(** [thanksapp ({ githubSlug, npmPackageName })] *)
Definition thanksapp (opts : object) : completion :=
  let githubSlug := get opts "githubSlug" in
  let npmPackageName := get opts "npmPackageName" in
  if negb (truthy githubSlug) && negb (truthy npmPackageName)
  then Throw (Error "githubSlug and npmPackageName are missing, at least one is required") else
  let slug :=
    if truthy npmPackageName
    then "npm/" ++ toString npmPackageName
    else "github/" ++ toString githubSlug in
  let image := "https://img.shields.io/badge/thanksapp-donate-yellow.svg" in
  let url := "https://givethanks.app/donate/" ++ slug in
  let alt := "Thanks App donate button" in
  let title := "Donate to this project using Thanks App" in
  badge (descriptor (VString image) (VString alt) (VString url) (VString title)).

Definition boostlab (opts : object) : completion :=
  let githubSlug := get opts "githubSlug" in
  if negb (truthy githubSlug) then Throw (Error "githubSlug is missing") else
  let image := "https://img.shields.io/badge/boostlab-donate-yellow.svg" in
  let url := "https://boost-lab.app/" ++ toString githubSlug in
  let alt := "Boost Lab donate button" in
  let title := "Donate to this project using Boost Lab" in
  badge (descriptor (VString image) (VString alt) (VString url) (VString title)).

(** ** String methods used by the social badges *)

(** [s.split (sep)] for a separator of one character. *)
Fixpoint split_string (sep : ascii) (s : string) : list string :=
  match s with
  | EmptyString => [EmptyString]
  | String c rest =>
      if Ascii.eqb c sep then EmptyString :: split_string sep rest
      else match split_string sep rest with
           | head :: tail => String c head :: tail
           | [] => [String c EmptyString]
           end
  end.

(** [array[i]]: reading past the end gives [undefined]. *)
Definition element (array : list string) (i : nat) : value :=
  match array !! i with
  | Some s => VString s
  | None => VUndefined
  end.

(** [s.replace (/-/g, ' ')] *)
Fixpoint replace_dashes (s : string) : string :=
  match s with
  | EmptyString => EmptyString
  | String c rest =>
      String (if Ascii.eqb c "-" then " "%char else c) (replace_dashes rest)
  end.

(** The class [\s] on code units below 256: tab, line feed, vertical tab,
    form feed, carriage return, space and no-break space. *)
Definition is_space (c : ascii) : bool :=
  match N_of_ascii c with
  | 9 | 10 | 11 | 12 | 13 | 32 | 160 => true
  | _ => false
  end%N.

(** [s.replace (/\n\s*/g, '')]: [skipping] holds while the scan is inside a
    match, that is after a line feed and the white space that follows it. *)
Fixpoint strip_breaks (skipping : bool) (s : string) : string :=
  match s with
  | EmptyString => EmptyString
  | String c rest =>
      if Ascii.eqb c "010" then strip_breaks true rest
      else if skipping && is_space c then strip_breaks true rest
      else String c (strip_breaks false rest)
  end.

(** ** Social badges *)

Definition slackinscript (opts : object) : completion :=
  let slackinURL := get opts "slackinURL" in
  if negb (truthy slackinURL) then Throw (Error "slackinURL is missing") else
  Return ("<script async defer src=" ++ dq ++ toString slackinURL ++ "/slackin.js" ++ dq ++ "></script>").

Definition slackin (opts : object) : completion :=
  let slackinURL := get opts "slackinURL" in
  if negb (truthy slackinURL) then Throw (Error "slackinURL is missing") else
  let image := toString slackinURL ++ "/badge.svg" in
  let url := slackinURL in
  let alt := "Slack community badge" in
  let title := "Join this project's slack community" in
  badge (descriptor (VString image) (VString alt) url (VString title)).

(** [gabeacon ({ gaTrackingID, githubSlug })] *)
Definition gabeacon (opts : object) : completion :=
  let gaTrackingID := get opts "gaTrackingID" in
  let githubSlug := get opts "githubSlug" in
  if negb (truthy gaTrackingID) then Throw (Error "gaTrackingID is missing") else
  if negb (truthy githubSlug) then Throw (Error "githubSlug is missing") else
  let image := "https://ga-beacon.appspot.com/" ++ toString gaTrackingID ++ "/" ++ toString githubSlug in
  let url := "https://github.com/igrigorik/ga-beacon" in
  let alt := "Google Analytics beacon image" in
  let title := "Get Google Analytics for your project" in
  badge (descriptor (VString image) (VString alt) (VString url) (VString title)).

Definition googleplusone (opts : object) : completion :=
  let homepage := get opts "homepage" in
  if negb (truthy homepage) then Throw (Error "homepage is missing") else
  Return ("<span class=" ++ dq ++ "g-plusone" ++ dq ++ " data-size=" ++ dq ++ "medium" ++ dq ++ " data-href=" ++ dq ++ toString homepage ++ dq ++ "></span><script>(function() {var po = document.createElement('script'); po.type = 'text/javascript'; po.async = true; po.src = '//apis.google.com/js/plusone.js'; var s = document.getElementsByTagName('script')[0]; s.parentNode.insertBefore(po, s);})();</script>").

Definition redditsubmit (opts : object) : completion :=
  let homepage := get opts "homepage" in
  if negb (truthy homepage) then Throw (Error "homepage is missing") else
  Return ("<script>reddit_url=" ++ dq ++ toString homepage ++ dq ++ "</script><script src=" ++ dq ++ "https://en.reddit.com/static/button/button1.js" ++ dq ++ "></script>").

Definition hackernewssubmit (opts : object) : completion :=
  let homepage := get opts "homepage" in
  if negb (truthy homepage) then Throw (Error "homepage is missing") else
  Return ("<a href=" ++ dq ++ "https://news.ycombinator.com/submit" ++ dq ++ " class=" ++ dq ++ "hn-button" ++ dq ++ " data-url=" ++ dq ++ toString homepage ++ dq ++ " data-count=" ++ dq ++ "horizontal" ++ dq ++ ">Vote on Hacker News</a><script>var HN=[];HN.factory=function(e){return function(){HN.push([e].concat(Array.prototype.slice.call(arguments,0)))};},HN.on=HN.factory(" ++ dq ++ "on" ++ dq ++ "),HN.once=HN.factory(" ++ dq ++ "once" ++ dq ++ "),HN.off=HN.factory(" ++ dq ++ "off" ++ dq ++ "),HN.emit=HN.factory(" ++ dq ++ "emit" ++ dq ++ "),HN.load=function(){var e=" ++ dq ++ "hn-button.js" ++ dq ++ ";if(document.getElementById(e))return;var t=document.createElement(" ++ dq ++ "script" ++ dq ++ ");t.id=e,t.src=" ++ dq ++ "https://hn-button.herokuapp.com/hn-button.js" ++ dq ++ ";var n=document.getElementsByTagName(" ++ dq ++ "script" ++ dq ++ ")[0];n.parentNode.insertBefore(t,n)},HN.load();</script>").

(** [facebooklike ({ homepage, facebookApplicationID })] *)
Definition facebooklike (env : environment) (opts : object) : completion :=
  let homepage := get opts "homepage" in
  let facebookApplicationID := get opts "facebookApplicationID" in
  if negb (truthy homepage) then Throw (Error "homepage is missing") else
  let facebookApplicationID := or_else facebookApplicationID (getenv env "FACEBOOK_APPLICATION_ID") in
  if negb (truthy facebookApplicationID) then Throw (Error "facebookApplicationID is missing") else
  Return ("<iframe src=" ++ dq ++ "https://www.facebook.com/plugins/like.php?href=" ++ escape homepage ++ "&amp;send=false&amp;layout=button_count&amp;width=450&amp;show_faces=false&amp;font&amp;colorscheme=light&amp;action=like&amp;height=21&amp;appId=" ++ escape facebookApplicationID ++ dq ++ " scrolling=" ++ dq ++ "no" ++ dq ++ " frameborder=" ++ dq ++ "0" ++ dq ++ " style=" ++ dq ++ "border:none; overflow:hidden; width:450px; height:21px;" ++ dq ++ " allowTransparency=" ++ dq ++ "true" ++ dq ++ "></iframe>").

(** [facebookfollow ({ facebookUsername, facebookApplicationID })] *)
Definition facebookfollow (env : environment) (opts : object) : completion :=
  let facebookUsername := get opts "facebookUsername" in
  let facebookApplicationID := get opts "facebookApplicationID" in
  if negb (truthy facebookUsername) then Throw (Error "facebookUsername is missing") else
  let facebookApplicationID := or_else facebookApplicationID (getenv env "FACEBOOK_APPLICATION_ID") in
  if negb (truthy facebookApplicationID) then Throw (Error "facebookApplicationID is missing") else
  Return ("<iframe src=" ++ dq ++ "https://www.facebook.com/plugins/follow.php?href=https%3A%2F%2Fwww.facebook.com%2F" ++ escape facebookUsername ++ "&amp;layout=button_count&amp;show_faces=false&amp;colorscheme=light&amp;font&amp;width=450&amp;appId=" ++ escape facebookApplicationID ++ dq ++ " scrolling=" ++ dq ++ "no" ++ dq ++ " frameborder=" ++ dq ++ "0" ++ dq ++ " style=" ++ dq ++ "border:none; overflow:hidden; width:450px; height: 20px;" ++ dq ++ " allowTransparency=" ++ dq ++ "true" ++ dq ++ "></iframe>").

Definition twittertweet (opts : object) : completion :=
  let twitterUsername := get opts "twitterUsername" in
  if negb (truthy twitterUsername) then Throw (Error "twitterUsername is missing") else
  Return ("<a href=" ++ dq ++ "https://twitter.com/share" ++ dq ++ " class=" ++ dq ++ "twitter-share-button" ++ dq ++ " data-via=" ++ dq ++ toString twitterUsername ++ dq ++ " data-related=" ++ dq ++ toString twitterUsername ++ dq ++ ">Tweet</a><script>!function(d,s,id){var js,fjs=d.getElementsByTagName(s)[0];if(!d.getElementById(id)){js=d.createElement(s);js.id=id;js.src=" ++ dq ++ "https://platform.twitter.com/widgets.js" ++ dq ++ ";fjs.parentNode.insertBefore(js,fjs);}}(document," ++ dq ++ "script" ++ dq ++ "," ++ dq ++ "twitter-wjs" ++ dq ++ ");</script>").

Definition twitterfollow (opts : object) : completion :=
  let twitterUsername := get opts "twitterUsername" in
  if negb (truthy twitterUsername) then Throw (Error "twitterUsername is missing") else
  Return ("<a href=" ++ dq ++ "https://twitter.com/" ++ escape twitterUsername ++ dq ++ " class=" ++ dq ++ "twitter-follow-button" ++ dq ++ " data-show-count=" ++ dq ++ "false" ++ dq ++ ">Follow @" ++ toString twitterUsername ++ "</a><script>!function(d,s,id){var js,fjs=d.getElementsByTagName(s)[0];if(!d.getElementById(id)){js=d.createElement(s);js.id=id;js.src=" ++ dq ++ "https://platform.twitter.com/widgets.js" ++ dq ++ ";fjs.parentNode.insertBefore(js,fjs);}}(document," ++ dq ++ "script" ++ dq ++ "," ++ dq ++ "twitter-wjs" ++ dq ++ ");</script>").

Definition githubfollow (opts : object) : completion :=
  let githubUsername := get opts "githubUsername" in
  if negb (truthy githubUsername) then Throw (Error "githubUsername is missing") else
  Return ("<iframe src=" ++ dq ++ "https://ghbtns.com/github-btn.html?user=" ++ escape githubUsername ++ "&amp;type=follow&amp;count=true" ++ dq ++ " allowtransparency=" ++ dq ++ "true" ++ dq ++ " frameborder=" ++ dq ++ "0" ++ dq ++ " scrolling=" ++ dq ++ "0" ++ dq ++ " width=" ++ dq ++ "165" ++ dq ++ " height=" ++ dq ++ "20" ++ dq ++ "></iframe>").

(** [githubstar ({ githubSlug })]; calling [split] on a value that is not a
    string throws a [TypeError]. *)
Definition githubstar (opts : object) : completion :=
  let githubSlug := get opts "githubSlug" in
  if negb (truthy githubSlug) then Throw (Error "githubSlug is missing") else
  match githubSlug with
  | VString slug =>
      let split := split_string "/" slug in
      let githubUsername := element split 0 in
      let githubRepository := element split 1 in
      if negb (truthy githubUsername) || negb (truthy githubRepository)
      then Throw (Error "githubSlug is invalid") else
      Return ("<iframe src=" ++ dq ++ "https://ghbtns.com/github-btn.html?user=" ++ escape githubUsername ++ "&amp;repo=" ++ escape githubRepository ++ "&amp;type=watch&amp;count=true" ++ dq ++ " allowtransparency=" ++ dq ++ "true" ++ dq ++ " frameborder=" ++ dq ++ "0" ++ dq ++ " scrolling=" ++ dq ++ "0" ++ dq ++ " width=" ++ dq ++ "110" ++ dq ++ " height=" ++ dq ++ "20" ++ dq ++ "></iframe>")
  | _ => Throw (TypeError "githubSlug.split is not a function")
  end.

(** [quorafollow ({ quoraUsername, quoraRealname, quoraCode })]; [replace]
    is only called, and can only throw, when no real name is given. *)
Definition quorafollow (opts : object) : completion :=
  let quoraUsername := get opts "quoraUsername" in
  let quoraRealname := get opts "quoraRealname" in
  let quoraCode := get opts "quoraCode" in
  if negb (truthy quoraUsername) then Throw (Error "quoraUsername is missing") else
  let realname :=
    if truthy quoraRealname then Some quoraRealname
    else match quoraUsername with
         | VString s => Some (VString (replace_dashes s))
         | _ => None
         end in
  match realname with
  | None => Throw (TypeError "quoraUsername.replace is not a function")
  | Some quoraRealname =>
      let quoraCode := or_else quoraCode (VString "7N31XJs") in
      Return (strip_breaks false
        (nl ++ tab ++ tab ++ "<span data-name=" ++ dq ++ toString quoraUsername ++ dq ++ ">" ++ nl ++ tab ++ tab ++ tab ++ "Follow <a href=" ++ dq ++ "http://www.quora.com/" ++ toString quoraUsername ++ dq ++ ">" ++ toString quoraRealname ++ "</a> on <a href=" ++ dq ++ "http://www.quora.com" ++ dq ++ ">Quora</a>" ++ nl ++ tab ++ tab ++ tab ++ "<script src=" ++ dq ++ "https://www.quora.com/widgets/follow?embed_code=" ++ escape quoraCode ++ dq ++ "></script>" ++ nl ++ tab ++ tab ++ "</span>"))
  end.

(** ** The export table and the tags attached to the functions *)

(** An exported function; those that consult [process.env] receive it as
    an argument, the others ignore it. *)
Definition generator : Type := environment -> object -> completion.

Definition pure (f : object -> completion) : generator := fun _ => f.

(** [module.exports] *)
Definition module_exports : list (string * generator) :=
  [ ("badge", pure badge);
    ("shields", pure shields);
    ("npmversion", pure npmversion);
    ("npmdownloads", pure npmdownloads);
    ("daviddm", pure daviddm);
    ("daviddmdev", pure daviddmdev);
    ("saucelabsbm", saucelabsbm);
    ("saucelabs", saucelabs);
    ("travisci", pure travisci);
    ("codeship", pure codeship);
    ("coveralls", pure coveralls);
    ("codeclimate", pure codeclimate);
    ("bithound", pure bithound);
    ("waffle", pure waffle);
    ("sixtydevstips", pure sixtydevstips);
    ("patreon", pure patreon);
    ("opencollective", pure opencollective);
    ("gratipay", pure gratipay);
    ("flattr", pure flattr);
    ("paypal", pure paypal);
    ("crypto", pure crypto);
    ("bitcoin", pure bitcoin);
    ("wishlist", pure wishlist);
    ("buymeacoffee", pure buymeacoffee);
    ("liberapay", pure liberapay);
    ("thanksapp", pure thanksapp);
    ("boostlab", pure boostlab);
    ("slackinscript", pure slackinscript);
    ("slackin", pure slackin);
    ("gabeacon", pure gabeacon);
    ("googleplusone", pure googleplusone);
    ("redditsubmit", pure redditsubmit);
    ("hackernewssubmit", pure hackernewssubmit);
    ("facebooklike", facebooklike);
    ("facebookfollow", facebookfollow);
    ("twittertweet", pure twittertweet);
    ("twitterfollow", pure twitterfollow);
    ("githubfollow", pure githubfollow);
    ("githubstar", pure githubstar);
    ("quorafollow", pure quorafollow);
    ("nodeico", pure nodeico) ].

(** Reading a property of a function object out of the assignments made
    after its declaration; a property never assigned reads as [undefined]. *)
Fixpoint assigned (table : list (string * value)) (name : string) : value :=
  match table with
  | [] => VUndefined
  | (n, v) :: rest => if String.eqb n name then v else assigned rest name
  end.

(** [f.badgeCategory] *)
Definition badgeCategory : string -> value :=
  assigned
    (map (fun n => (n, VString "custom")) ["badge"; "shields"] ++
     map (fun n => (n, VString "development"))
       ["npmversion"; "npmdownloads"; "daviddm"; "daviddmdev"; "nodeico"] ++
     map (fun n => (n, VString "testing"))
       ["saucelabsbm"; "saucelabs"; "travisci"; "codeship"; "coveralls";
        "codeclimate"; "bithound"; "waffle"] ++
     map (fun n => (n, VString "funding"))
       ["sixtydevstips"; "patreon"; "opencollective"; "gratipay"; "flattr";
        "paypal"; "crypto"; "bitcoin"; "wishlist"; "buymeacoffee";
        "liberapay"; "thanksapp"; "boostlab"] ++
     map (fun n => (n, VString "social"))
       ["slackinscript"; "slackin"; "gabeacon"; "googleplusone";
        "redditsubmit"; "hackernewssubmit"; "facebooklike"; "facebookfollow";
        "twittertweet"; "twitterfollow"; "githubfollow"; "githubstar";
        "quorafollow"]).

(** [f.badgeInline] *)
Definition badgeInline : string -> value :=
  assigned [("saucelabsbm", VBoolean false)].

(** [f.badgeScript] *)
Definition badgeScript : string -> value :=
  assigned
    (map (fun n => (n, VBoolean true))
       ["slackinscript"; "googleplusone"; "redditsubmit"; "hackernewssubmit";
        "facebooklike"; "facebookfollow"; "twittertweet"; "twitterfollow";
        "githubfollow"; "githubstar"; "quorafollow"]).

(** ** Vocabulary of the specification *)

(** The error taxonomy names the messages of the thrown [Error]s. *)
Definition MissingFieldError (field : string) : exception :=
  Error (field ++ " is missing").

Definition InvalidSlugError : exception :=
  Error "githubSlug is invalid".

Definition InvalidTypeError : exception :=
  Error "nodeicoQueryString must be a string or an object".

(** [contains needle s]: [needle] occurs somewhere in [s]. *)
Fixpoint contains (needle s : string) : bool :=
  String.prefix needle s ||
  match s with
  | EmptyString => false
  | String _ rest => contains needle rest
  end.

(** A completion that reports something missing: every message of that
    kind in the source has the word in it, whether it names one field or
    several. *)
Definition reports_missing (c : completion) : bool :=
  match c with
  | Throw (Error message) => contains "missing" message
  | _ => false
  end.

(** What a configuration supplies for a field of string type: [None] when
    the field is absent or empty (any value that counts as false), [Some s]
    when it is present with the non-empty string [s]. *)
Definition supplies (v : value) (field : option string) : Prop :=
  match field with
  | None => truthy v = false
  | Some s => v = VString s /\ s <> EmptyString
  end.

(** The markup of section 4.1: the [<img>] tag, with [alt] when given ... *)
Definition img_tag (image : string) (alt : option string) : string :=
  match alt with
  | None => "<img src=" ++ dq ++ image ++ dq ++ " />"
  | Some alt => "<img src=" ++ dq ++ image ++ dq ++ " alt=" ++ dq ++ alt ++ dq ++ " />"
  end.

(** ... and the [<a>] tag around a fragment, with [title] when given. *)
Definition a_tag (url : string) (title : option string) (fragment : string) : string :=
  match title with
  | None => "<a href=" ++ dq ++ url ++ dq ++ ">" ++ fragment ++ "</a>"
  | Some title =>
      "<a href=" ++ dq ++ url ++ dq ++ " title=" ++ dq ++ title ++ dq ++ ">" ++ fragment ++ "</a>"
  end.

(** The whole badge: the image, wrapped in a link when there is a link. *)
Definition badge_markup (image : string) (alt url title : option string) : string :=
  match url with
  | None => img_tag image alt
  | Some url => a_tag url title (img_tag image alt)
  end.

(** A field a generator insists on: read from the configuration alone, or
    from the configuration and then from an environment variable. *)
Inductive requirement : Type :=
| Field (name : string)
| FieldOrEnv (name variable : string).

Definition field_name (r : requirement) : string :=
  match r with
  | Field name => name
  | FieldOrEnv name _ => name
  end.

(** The fields each generator checks unconditionally, in the order of its
    parameter list.  The generators that resolve a link through a chain of
    alternatives have none. *)
Definition required_fields (name : string) : list requirement :=
  let saucelabs_fields :=
    [Field "saucelabsUsername"; FieldOrEnv "saucelabsAuthToken" "SAUCELABS_AUTH_TOKEN"] in
  let table : list (string * list requirement) :=
    [ ("badge", [Field "image"]);
      ("shields", [Field "left"; Field "right"]);
      ("npmversion", [Field "npmPackageName"]);
      ("npmdownloads", [Field "npmPackageName"]);
      ("daviddm", [Field "githubSlug"]);
      ("daviddmdev", [Field "githubSlug"]);
      ("nodeico", [Field "npmPackageName"]);
      ("saucelabsbm", saucelabs_fields);
      ("saucelabs", saucelabs_fields);
      ("travisci", [Field "githubSlug"]);
      ("codeship", [Field "codeshipProjectUUID"; Field "codeshipProjectID"]);
      ("coveralls", [Field "githubSlug"]);
      ("codeclimate", [Field "githubSlug"]);
      ("bithound", [Field "githubSlug"]);
      ("waffle", [Field "githubSlug"]);
      ("wishlist", [Field "wishlistURL"]);
      ("boostlab", [Field "githubSlug"]);
      ("slackinscript", [Field "slackinURL"]);
      ("slackin", [Field "slackinURL"]);
      ("gabeacon", [Field "gaTrackingID"; Field "githubSlug"]);
      ("googleplusone", [Field "homepage"]);
      ("redditsubmit", [Field "homepage"]);
      ("hackernewssubmit", [Field "homepage"]);
      ("facebooklike",
        [Field "homepage"; FieldOrEnv "facebookApplicationID" "FACEBOOK_APPLICATION_ID"]);
      ("facebookfollow",
        [Field "facebookUsername"; FieldOrEnv "facebookApplicationID" "FACEBOOK_APPLICATION_ID"]);
      ("twittertweet", [Field "twitterUsername"]);
      ("twitterfollow", [Field "twitterUsername"]);
      ("githubfollow", [Field "githubUsername"]);
      ("githubstar", [Field "githubSlug"]);
      ("quorafollow", [Field "quoraUsername"]) ] in
  default [] (snd <$> find (fun entry => String.eqb (fst entry) name) table).

(** The first field of the list that the configuration leaves absent or
    empty. *)
Definition first_unset (opts : object) (fields : list requirement) : option string :=
  field_name <$> find (fun r => negb (truthy (get opts (field_name r)))) fields.

(** What the generator ends up with for a required field. *)
Definition effective (env : environment) (opts : object) (r : requirement) : value :=
  match r with
  | Field name => get opts name
  | FieldOrEnv name variable => or_else (get opts name) (getenv env variable)
  end.

(** The first field of the list that is absent or empty once the
    environment has been consulted. *)
Definition first_missing (env : environment) (opts : object)
    (fields : list requirement) : option string :=
  field_name <$> find (fun r => negb (truthy (effective env opts r))) fields.

(** *** The badges the claims speak of, written with [badge_markup] *)

Definition paypal_badge (url : string) : string :=
  badge_markup "https://img.shields.io/badge/paypal-donate-yellow.svg"
    (Some "PayPal donate button") (Some url)
    (Some "Donate to this project using Paypal").

Definition crypto_badge (url : string) : string :=
  badge_markup "https://img.shields.io/badge/crypto-donate-yellow.svg"
    (Some "crypto donate button") (Some url)
    (Some "Donate to this project using Cryptocurrency").

Definition thanksapp_badge (url : string) : string :=
  badge_markup "https://img.shields.io/badge/thanksapp-donate-yellow.svg"
    (Some "Thanks App donate button") (Some url)
    (Some "Donate to this project using Thanks App").

Definition saucelabs_badge (username token : string) : string :=
  badge_markup
    ("https://saucelabs.com/browser-matrix/" ++ username ++ ".svg?auth=" ++ escape_string token)
    (Some "Sauce Labs Browser Matrix")
    (Some ("https://saucelabs.com/u/" ++ username))
    (Some "Check this project's browser tests on Sauce Labs").


(** The star button for an owner and a repository, both already escaped. *)
Definition star_button (user repo : string) : string :=
  "<iframe src=" ++ dq ++ "https://ghbtns.com/github-btn.html?user=" ++ user ++ "&amp;repo=" ++ repo ++ "&amp;type=watch&amp;count=true" ++ dq ++ " allowtransparency=" ++ dq ++ "true" ++ dq ++ " frameborder=" ++ dq ++ "0" ++ dq ++ " scrolling=" ++ dq ++ "0" ++ dq ++ " width=" ++ dq ++ "110" ++ dq ++ " height=" ++ dq ++ "20" ++ dq ++ "></iframe>".



(** *** Vocabulary for the properties beyond the claims *)

(** The names each exported function takes out of its argument, from its
    parameter list; [bitcoin] passes the whole object to [crypto]. *)
Definition parameters (name : string) : list string :=
  let table : list (string * list string) :=
    [ ("badge", ["image"; "alt"; "url"; "title"]);
      ("shields", ["left"; "right"; "color"; "alt"; "url"; "title"]);
      ("npmversion", ["npmPackageName"]);
      ("npmdownloads", ["npmPackageName"]);
      ("daviddm", ["githubSlug"]);
      ("daviddmdev", ["githubSlug"]);
      ("saucelabsbm", ["saucelabsUsername"; "saucelabsAuthToken"]);
      ("saucelabs", ["saucelabsUsername"; "saucelabsAuthToken"]);
      ("travisci", ["githubSlug"]);
      ("codeship", ["codeshipProjectUUID"; "codeshipProjectID"]);
      ("coveralls", ["githubSlug"]);
      ("codeclimate", ["githubSlug"]);
      ("bithound", ["githubSlug"]);
      ("waffle", ["githubSlug"]);
      ("sixtydevstips", ["sixtydevstipsID"; "sixtydevstipsURL"]);
      ("patreon", ["patreonUsername"; "patreonURL"]);
      ("opencollective", ["opencollectiveUsername"; "opencollectiveURL"]);
      ("gratipay", ["gratipayUsername"; "gratipayURL"]);
      ("flattr", ["flattrCode"; "flattrUsername"; "flattrURL"]);
      ("paypal", ["paypalURL"; "paypalButtonID"; "paypalUsername"]);
      ("crypto", ["cryptoURL"; "bitcoinURL"]);
      ("bitcoin", ["cryptoURL"; "bitcoinURL"]);
      ("wishlist", ["wishlistURL"]);
      ("buymeacoffee", ["buymeacoffeeUsername"; "buymeacoffeeURL"]);
      ("liberapay", ["liberapayUsername"; "liberapayURL"]);
      ("thanksapp", ["githubSlug"; "npmPackageName"]);
      ("boostlab", ["githubSlug"]);
      ("slackinscript", ["slackinURL"]);
      ("slackin", ["slackinURL"]);
      ("gabeacon", ["gaTrackingID"; "githubSlug"]);
      ("googleplusone", ["homepage"]);
      ("redditsubmit", ["homepage"]);
      ("hackernewssubmit", ["homepage"]);
      ("facebooklike", ["homepage"; "facebookApplicationID"]);
      ("facebookfollow", ["facebookUsername"; "facebookApplicationID"]);
      ("twittertweet", ["twitterUsername"]);
      ("twitterfollow", ["twitterUsername"]);
      ("githubfollow", ["githubUsername"]);
      ("githubstar", ["githubSlug"]);
      ("quorafollow", ["quoraUsername"; "quoraRealname"; "quoraCode"]);
      ("nodeico", ["npmPackageName"; "nodeicoQueryString"]) ] in
  default [] (snd <$> find (fun entry => String.eqb (fst entry) name) table).

(** The five values of [badgeCategory]. *)
Definition categories : list value :=
  [VString "custom"; VString "development"; VString "testing";
   VString "funding"; VString "social"].

(** A configuration all of whose properties hold strings. *)
Definition is_string (v : value) : bool :=
  match v with
  | VString _ => true
  | _ => false
  end.

Definition string_valued (opts : object) : Prop :=
  map_Forall (fun _ v => is_string v = true) opts.

(** The funding generators that take a link or else build one from a
    single name: the function, the property with the link, the property
    with the name, and what the name is appended to. *)
Record alternative : Type := Alternative {
  alternative_generator : object -> completion;
  alternative_url : string;
  alternative_name : string;
  alternative_prefix : string
}.

Definition link_or_name : list alternative :=
  [ Alternative sixtydevstips "sixtydevstipsURL" "sixtydevstipsID" "https://tips.60devs.com/tip/";
    Alternative patreon "patreonURL" "patreonUsername" "https://patreon.com/";
    Alternative opencollective "opencollectiveURL" "opencollectiveUsername"
      "https://opencollective.com/";
    Alternative gratipay "gratipayURL" "gratipayUsername" "https://gratipay.com/";
    Alternative buymeacoffee "buymeacoffeeURL" "buymeacoffeeUsername"
      "https://buymeacoffee.com/";
    Alternative liberapay "liberapayURL" "liberapayUsername" "https://liberapay.com/" ].

(** The two Facebook widgets with the property each requires first. *)
Definition facebook_widgets : list (generator * string) :=
  [ (facebooklike, "homepage"); (facebookfollow, "facebookUsername") ].

(** [all_chars p s]: every character of [s] satisfies [p]. *)
Fixpoint all_chars (p : ascii -> bool) (s : string) : bool :=
  match s with
  | EmptyString => true
  | String c rest => p c && all_chars p rest
  end.

Definition not_line_feed (c : ascii) : bool := negb (Ascii.eqb c "010").

(** The characters [escape] can produce: those it keeps, the percent sign
    and the hexadecimal digits, which are among those it keeps. *)
Definition escaped_char (c : ascii) : bool :=
  escape_keeps (N_of_ascii c) || Ascii.eqb c "%".

(** Whether the scan of [strip_breaks] is inside a match at the end of [s]. *)
Fixpoint end_state (skipping : bool) (s : string) : bool :=
  match s with
  | EmptyString => skipping
  | String c rest =>
      if Ascii.eqb c "010" then end_state true rest
      else if skipping && is_space c then end_state true rest
      else end_state false rest
  end.

(** The Quora widget on one line. *)
Definition quora_markup (username realname code : string) : string :=
  "<span data-name=" ++ dq ++ username ++ dq ++ ">" ++ "Follow <a href=" ++ dq ++ "http://www.quora.com/" ++ username ++ dq ++ ">" ++ realname ++ "</a> on <a href=" ++ dq ++ "http://www.quora.com" ++ dq ++ ">Quora</a>" ++ "<script src=" ++ dq ++ "https://www.quora.com/widgets/follow?embed_code=" ++ code ++ dq ++ "></script>" ++ "</span>".

(** The follow button of GitHub for an escaped user name. *)
Definition follow_button (user : string) : string :=
  "<iframe src=" ++ dq ++ "https://ghbtns.com/github-btn.html?user=" ++ user ++ "&amp;type=follow&amp;count=true" ++ dq ++ " allowtransparency=" ++ dq ++ "true" ++ dq ++ " frameborder=" ++ dq ++ "0" ++ dq ++ " scrolling=" ++ dq ++ "0" ++ dq ++ " width=" ++ dq ++ "165" ++ dq ++ " height=" ++ dq ++ "20" ++ dq ++ "></iframe>".

(** ** Properties *)

(** *** Strings *)

Lemma append_assoc (a b c : string) : (a ++ b) ++ c = a ++ b ++ c.
Proof.
  induction a as [|x a IH]; [reflexivity|].
  change (String x ((a ++ b) ++ c) = String x (a ++ b ++ c)). now rewrite IH.
Qed.

Lemma append_empty_r (a : string) : a ++ EmptyString = a.
Proof.
  induction a as [|x a IH]; [reflexivity|].
  change (String x (a ++ EmptyString) = String x a). now rewrite IH.
Qed.

Lemma append_nonempty_r (a b : string) : b <> EmptyString -> a ++ b <> EmptyString.
Proof. destruct a; [trivial | discriminate]. Qed.

Lemma truthy_string (s : string) : s <> EmptyString -> truthy (VString s) = true.
Proof. destruct s; [congruence | reflexivity]. Qed.

(** *** Reading fields *)

(** Turns every [supplies] hypothesis into an equation on the value read
    and rewrites the goal with it. *)
Ltac read_fields :=
  repeat match goal with
    | H : supplies _ (Some _) |- _ => destruct H as [H ?]
    | H : supplies _ None |- _ => unfold supplies in H
    end;
  repeat first
    [ match goal with H : _ = VString _ |- _ => rewrite H end
    | match goal with H : truthy _ = false |- _ => rewrite H end
    | rewrite truthy_string by assumption
    | progress cbn [negb andb orb] ].

(** Closes an equation between two renderings of the same markup. *)
Ltac same_markup :=
  cbn [negb andb orb toString escape];
  rewrite ?append_assoc; reflexivity.

Lemma get_descriptor_image i a u t : get (descriptor i a u t) "image" = i.
Proof. reflexivity. Qed.
Lemma get_descriptor_alt i a u t : get (descriptor i a u t) "alt" = a.
Proof. reflexivity. Qed.
Lemma get_descriptor_url i a u t : get (descriptor i a u t) "url" = u.
Proof. reflexivity. Qed.
Lemma get_descriptor_title i a u t : get (descriptor i a u t) "title" = t.
Proof. reflexivity. Qed.

(** [badge] applied to the object literal the generators build. *)
Lemma badge_descriptor (image alt url title : string) :
  image <> EmptyString -> alt <> EmptyString -> url <> EmptyString ->
  title <> EmptyString ->
  badge (descriptor (VString image) (VString alt) (VString url) (VString title))
  = Return (badge_markup image (Some alt) (Some url) (Some title)).
Proof.
  intros Hi Ha Hu Ht. unfold badge.
  rewrite get_descriptor_image, get_descriptor_alt, get_descriptor_url,
    get_descriptor_title.
  rewrite !truthy_string by assumption.
  unfold badge_markup, a_tag, img_tag. same_markup.
Qed.

(** C1.  [badge] with a non-empty [image]: without a link the result is the
    bare [<img>] tag, which carries [alt] exactly when [alt] is present;
    with a link that tag is wrapped in [<a href=...>], which carries
    [title] exactly when [title] is present.  A field is present when it
    holds a non-empty string, absent when it is missing or empty. *)
Theorem badge_renders (opts : object) (image : string) :
  supplies (get opts "image") (Some image) ->
  (supplies (get opts "url") None -> supplies (get opts "alt") None ->
   badge opts = Return ("<img src=" ++ dq ++ image ++ dq ++ " />"))
  /\ (supplies (get opts "url") None ->
      forall alt, supplies (get opts "alt") (Some alt) ->
      badge opts
      = Return ("<img src=" ++ dq ++ image ++ dq ++ " alt=" ++ dq ++ alt ++ dq ++ " />"))
  /\ (forall url alt, supplies (get opts "url") (Some url) ->
      supplies (get opts "alt") alt ->
      (supplies (get opts "title") None ->
       badge opts
       = Return ("<a href=" ++ dq ++ url ++ dq ++ ">" ++ img_tag image alt ++ "</a>"))
      /\ (forall title, supplies (get opts "title") (Some title) ->
          badge opts
          = Return ("<a href=" ++ dq ++ url ++ dq ++ " title=" ++ dq ++ title ++ dq ++ ">"
                    ++ img_tag image alt ++ "</a>"))).
Proof.
  intros Himage. split; [|split; [|intros url alt Hurl Halt; split]].
  - intros Hurl Halt. unfold badge. read_fields. same_markup.
  - intros Hurl alt Halt. unfold badge. read_fields. same_markup.
  - intros Htitle. unfold badge, img_tag. destruct alt; read_fields; same_markup.
  - intros title Htitle. unfold badge, img_tag. destruct alt; read_fields; same_markup.
Qed.

Lemma badge_renders_witness :
  badge {[ "image" := VString "x.png"; "url" := VString "http://y" ]}
  = Return ("<a href=" ++ dq ++ "http://y" ++ dq ++ "><img src=" ++ dq ++ "x.png" ++ dq ++ " /></a>").
Proof.
  pose (opts := ({[ "image" := VString "x.png"; "url" := VString "http://y" ]} : object)).
  assert (Himage : supplies (get opts "image") (Some "x.png"))
    by (split; [reflexivity | discriminate]).
  destruct (badge_renders opts "x.png" Himage) as (_ & _ & Hlink).
  assert (Hurl : supplies (get opts "url") (Some "http://y"))
    by (split; [reflexivity | discriminate]).
  assert (Halt : supplies (get opts "alt") None) by reflexivity.
  destruct (Hlink "http://y" None Hurl Halt) as (Hplain & _).
  apply Hplain. reflexivity.
Defined.

(** *** Links resolved through alternatives *)

Lemma reports_missing_field (field : string) :
  reports_missing (Throw (MissingFieldError field)) = true.
Proof.
  unfold MissingFieldError, reports_missing.
  induction field as [|c field IH]; [reflexivity|].
  change (String c field ++ " is missing") with (String c (field ++ " is missing")).
  cbn [contains]. rewrite IH. apply orb_true_r.
Qed.

(** C3.  [paypal] resolves its link in this order: a non-empty [paypalURL]
    as given; otherwise the hosted-button address with the escaped
    [paypalButtonID]; otherwise [https://paypal.me/] followed by
    [paypalUsername]; and when all three are absent or empty it throws an
    error that reports the missing fields. *)
Theorem paypal_resolution (opts : object) (url id user : option string) :
  supplies (get opts "paypalURL") url ->
  supplies (get opts "paypalButtonID") id ->
  supplies (get opts "paypalUsername") user ->
  (forall u, url = Some u -> paypal opts = Return (paypal_badge u))
  /\ (forall i, url = None -> id = Some i ->
      paypal opts
      = Return (paypal_badge
          ("https://www.paypal.com/cgi-bin/webscr?cmd=_s-xclick&amp;hosted_button_id="
           ++ escape_string i)))
  /\ (forall n, url = None -> id = None -> user = Some n ->
      paypal opts = Return (paypal_badge ("https://paypal.me/" ++ n)))
  /\ (url = None -> id = None -> user = None ->
      paypal opts
      = Throw (Error "paypalURL, paypalButtonID, or paypalUsername is missing, at least one must exist")
      /\ reports_missing (paypal opts) = true).
Proof.
  intros Hurl Hid Huser. split; [|split; [|split]].
  - intros u ->. unfold paypal. read_fields. cbn [negb].
    now apply badge_descriptor.
  - intros i -> ->. unfold paypal. read_fields. cbn [negb].
    apply badge_descriptor; discriminate.
  - intros n -> -> ->. unfold paypal. read_fields. cbn [negb].
    apply badge_descriptor; discriminate.
  - intros -> -> ->. unfold paypal. read_fields. split; reflexivity.
Qed.

Lemma paypal_resolution_witness :
  paypal {[ "paypalUsername" := VString "bob" ]}
  = Return (paypal_badge "https://paypal.me/bob").
Proof.
  pose (opts := ({[ "paypalUsername" := VString "bob" ]} : object)).
  assert (Hurl : supplies (get opts "paypalURL") None) by reflexivity.
  assert (Hid : supplies (get opts "paypalButtonID") None) by reflexivity.
  assert (Huser : supplies (get opts "paypalUsername") (Some "bob"))
    by (split; [reflexivity | discriminate]).
  destruct (paypal_resolution opts None None (Some "bob") Hurl Hid Huser)
    as (_ & _ & Hname & _).
  exact (Hname "bob" eq_refl eq_refl eq_refl).
Defined.

(** C4.  [bitcoin] returns what [crypto] returns and throws what [crypto]
    throws, for every configuration. *)
Theorem bitcoin_forwards_to_crypto (opts : object) :
  bitcoin opts = crypto opts.
Proof. reflexivity. Qed.

(** C9.  [crypto] also reads [bitcoinURL]: it is the link when [cryptoURL]
    is absent or empty, [cryptoURL] wins when both are given, and with
    neither the error names [cryptoURL] alone. *)
Theorem crypto_reads_bitcoinURL (opts : object) (cryptoURL bitcoinURL : option string) :
  supplies (get opts "cryptoURL") cryptoURL ->
  supplies (get opts "bitcoinURL") bitcoinURL ->
  (forall b, cryptoURL = None -> bitcoinURL = Some b ->
   crypto opts = Return (crypto_badge b))
  /\ (forall c, cryptoURL = Some c -> crypto opts = Return (crypto_badge c))
  /\ (cryptoURL = None -> bitcoinURL = None ->
      crypto opts = Throw (MissingFieldError "cryptoURL")).
Proof.
  intros Hc Hb. split; [|split].
  - intros b -> ->. unfold crypto, or_else. read_fields. cbn [negb].
    apply badge_descriptor; (assumption || discriminate).
  - intros c ->. unfold crypto, or_else. read_fields. cbn [negb].
    apply badge_descriptor; (assumption || discriminate).
  - intros -> ->. unfold crypto, or_else. read_fields. reflexivity.
Qed.

Lemma crypto_reads_bitcoinURL_witness :
  crypto {[ "bitcoinURL" := VString "http://x" ]} = Return (crypto_badge "http://x").
Proof.
  pose (opts := ({[ "bitcoinURL" := VString "http://x" ]} : object)).
  assert (Hc : supplies (get opts "cryptoURL") None) by reflexivity.
  assert (Hb : supplies (get opts "bitcoinURL") (Some "http://x"))
    by (split; [reflexivity | discriminate]).
  destruct (crypto_reads_bitcoinURL opts None (Some "http://x") Hc Hb) as (Hbit & _).
  exact (Hbit "http://x" eq_refl eq_refl).
Defined.

(** C10.  [thanksapp] builds its link from [npmPackageName] whenever that
    is given, also next to a [githubSlug]; the slug is used only when
    [npmPackageName] is absent or empty. *)
Theorem thanksapp_prefers_npm (opts : object) (githubSlug npmPackageName : option string) :
  supplies (get opts "githubSlug") githubSlug ->
  supplies (get opts "npmPackageName") npmPackageName ->
  (forall n, npmPackageName = Some n ->
   thanksapp opts = Return (thanksapp_badge ("https://givethanks.app/donate/npm/" ++ n)))
  /\ (forall g, npmPackageName = None -> githubSlug = Some g ->
      thanksapp opts
      = Return (thanksapp_badge ("https://givethanks.app/donate/github/" ++ g))).
Proof.
  intros Hg Hn. split.
  - intros n ->. unfold thanksapp. read_fields.
    rewrite andb_false_r.
    apply badge_descriptor; discriminate.
  - intros g -> ->. unfold thanksapp. read_fields. cbn [negb andb].
    apply badge_descriptor; discriminate.
Qed.

Lemma thanksapp_prefers_npm_witness :
  thanksapp {[ "githubSlug" := VString "bevry/badges"; "npmPackageName" := VString "badges" ]}
  = Return (thanksapp_badge "https://givethanks.app/donate/npm/badges").
Proof.
  pose (opts := ({[ "githubSlug" := VString "bevry/badges";
                    "npmPackageName" := VString "badges" ]} : object)).
  assert (Hg : supplies (get opts "githubSlug") (Some "bevry/badges"))
    by (split; [reflexivity | discriminate]).
  assert (Hn : supplies (get opts "npmPackageName") (Some "badges"))
    by (split; [reflexivity | discriminate]).
  destruct (thanksapp_prefers_npm opts (Some "bevry/badges") (Some "badges") Hg Hn)
    as (Hnpm & _).
  exact (Hnpm "badges" eq_refl).
Defined.

(** *** Sauce Labs *)

(** C7.  [saucelabs] with a non-empty [saucelabsUsername]: an explicit
    [saucelabsAuthToken] is used, escaped, as the [auth] parameter of the
    image address; when it is absent or empty the environment variable
    [SAUCELABS_AUTH_TOKEN] is used in the same way; and when that is absent
    or empty too the call fails with the missing-field error for
    [saucelabsAuthToken]. *)
Theorem saucelabs_token_fallback (env : environment) (opts : object)
    (username : string) (explicit variable : option string) :
  supplies (get opts "saucelabsUsername") (Some username) ->
  supplies (get opts "saucelabsAuthToken") explicit ->
  supplies (getenv env "SAUCELABS_AUTH_TOKEN") variable ->
  (forall t, explicit = Some t ->
   saucelabs env opts = Return (saucelabs_badge username t))
  /\ (forall t, explicit = None -> variable = Some t ->
      saucelabs env opts = Return (saucelabs_badge username t))
  /\ (explicit = None -> variable = None ->
      saucelabs env opts = Throw (MissingFieldError "saucelabsAuthToken")).
Proof.
  intros Hu He Hv. split; [|split].
  - intros t ->. unfold saucelabs, or_else. read_fields.
    apply badge_descriptor; discriminate.
  - intros t -> ->. unfold saucelabs, or_else. read_fields.
    apply badge_descriptor; discriminate.
  - intros -> ->. unfold saucelabs, or_else. read_fields. reflexivity.
Qed.

Lemma saucelabs_token_fallback_witness :
  saucelabs {[ "SAUCELABS_AUTH_TOKEN" := "a b" ]} {[ "saucelabsUsername" := VString "bevry" ]}
  = Return (saucelabs_badge "bevry" "a b").
Proof.
  pose (env := ({[ "SAUCELABS_AUTH_TOKEN" := "a b" ]} : environment)).
  pose (opts := ({[ "saucelabsUsername" := VString "bevry" ]} : object)).
  assert (Hu : supplies (get opts "saucelabsUsername") (Some "bevry"))
    by (split; [reflexivity | discriminate]).
  assert (He : supplies (get opts "saucelabsAuthToken") None) by reflexivity.
  assert (Hv : supplies (getenv env "SAUCELABS_AUTH_TOKEN") (Some "a b"))
    by (split; [reflexivity | discriminate]).
  destruct (saucelabs_token_fallback env opts "bevry" None (Some "a b") Hu He Hv)
    as (_ & Henv & _).
  exact (Henv "a b" eq_refl eq_refl).
Defined.

(** C8.  [saucelabsbm] and [saucelabs] complete alike on every
    configuration in every environment; of the tags on the two functions
    only [badgeInline] differs, which [saucelabsbm] sets to [false] and
    [saucelabs] leaves unset. *)
Theorem saucelabsbm_same_as_saucelabs (env : environment) (opts : object) :
  saucelabsbm env opts = saucelabs env opts
  /\ badgeCategory "saucelabsbm" = badgeCategory "saucelabs"
  /\ badgeScript "saucelabsbm" = badgeScript "saucelabs"
  /\ badgeInline "saucelabsbm" = VBoolean false
  /\ badgeInline "saucelabs" = VUndefined.
Proof. repeat split. Qed.

(** *** Splitting a slug *)

Lemma contains_slash_cons (c : ascii) (s : string) :
  contains "/" (String c s) = Ascii.eqb c "/" || contains "/" s.
Proof.
  cbn [contains String.prefix].
  destruct (ascii_dec "/" c) as [<- | Hne].
  - now destruct s.
  - destruct (Ascii.eqb_spec c "/") as [-> | _]; [congruence | reflexivity].
Qed.

Lemma split_string_cons (c : ascii) (s : string) :
  Ascii.eqb c "/" = false ->
  exists head tail,
    split_string "/" s = head :: tail
    /\ split_string "/" (String c s) = String c head :: tail.
Proof.
  intros Hc. cbn [split_string]. rewrite Hc.
  destruct s as [|d s]; cbn [split_string].
  - eauto.
  - destruct (Ascii.eqb d "/"); [eauto|].
    destruct (split_string "/" s); eauto.
Qed.

(** Without a slash the split has the slug as its only element. *)
Lemma split_string_plain (s : string) :
  contains "/" s = false -> split_string "/" s = [s].
Proof.
  induction s as [|c s IH]; [reflexivity|].
  rewrite contains_slash_cons. intros [Hc Hs]%orb_false_elim.
  destruct (split_string_cons c s Hc) as (head & tail & Hsplit & ->).
  rewrite (IH Hs) in Hsplit. now inversion Hsplit.
Qed.

(** The part before the first slash is the first element. *)
Lemma split_string_first (a b : string) :
  contains "/" a = false ->
  split_string "/" (a ++ "/" ++ b) = a :: split_string "/" b.
Proof.
  induction a as [|c a IH]; [reflexivity|].
  rewrite contains_slash_cons. intros [Hc Ha]%orb_false_elim.
  change (String c a ++ "/" ++ b) with (String c (a ++ "/" ++ b)).
  destruct (split_string_cons c (a ++ "/" ++ b) Hc) as (head & tail & Hsplit & ->).
  rewrite (IH Ha) in Hsplit. now inversion Hsplit.
Qed.

(** The first two elements of the split of [owner/repo] and of
    [owner/repo/...]. *)
Lemma split_string_halves (owner repo rest : string) :
  contains "/" owner = false -> contains "/" repo = false ->
  rest = EmptyString \/ (exists r, rest = "/" ++ r) ->
  exists more, split_string "/" (owner ++ "/" ++ repo ++ rest) = owner :: repo :: more.
Proof.
  intros Ho Hr Hrest. rewrite (split_string_first _ _ Ho).
  destruct Hrest as [-> | (r & ->)].
  - rewrite append_empty_r, (split_string_plain _ Hr). eauto.
  - rewrite (split_string_first _ _ Hr). eauto.
Qed.

(** C5.  [githubstar], given a slug: a slug without [/] is rejected with
    the invalid-slug error; a slug [owner/repo], possibly followed by
    further [/...] parts, is rejected in the same way when the owner or
    the repository is empty, and otherwise gives the star button with the
    escaped owner and the escaped repository in its address. *)
Theorem githubstar_slug (opts : object) (slug : string) :
  supplies (get opts "githubSlug") (Some slug) ->
  (contains "/" slug = false -> githubstar opts = Throw InvalidSlugError)
  /\ (forall owner repo rest,
      slug = owner ++ "/" ++ repo ++ rest ->
      contains "/" owner = false -> contains "/" repo = false ->
      rest = EmptyString \/ (exists r, rest = "/" ++ r) ->
      (owner = EmptyString \/ repo = EmptyString ->
       githubstar opts = Throw InvalidSlugError)
      /\ (owner <> EmptyString -> repo <> EmptyString ->
          githubstar opts
          = Return (star_button (escape_string owner) (escape_string repo)))).
Proof.
  intros Hslug. split.
  - intros Hplain. unfold githubstar. read_fields.
    rewrite (split_string_plain _ Hplain). cbn [element lookup list_lookup].
    read_fields. reflexivity.
  - intros owner repo rest Heq Ho Hr Hrest.
    destruct (split_string_halves owner repo rest Ho Hr Hrest) as (more & Hsplit).
    rewrite <- Heq in Hsplit.
    split.
    + intros Hempty. unfold githubstar. read_fields. rewrite Hsplit.
      cbn [element lookup list_lookup].
      destruct Hempty as [-> | ->]; [reflexivity | now rewrite orb_true_r].
    + intros Howner Hrepo. unfold githubstar. read_fields. rewrite Hsplit.
      cbn [element lookup list_lookup]. read_fields. reflexivity.
Qed.

Lemma githubstar_slug_witness :
  githubstar {[ "githubSlug" := VString "ab" ]} = Throw InvalidSlugError
  /\ githubstar {[ "githubSlug" := VString "a/b" ]} = Return (star_button "a" "b").
Proof.
  split.
  - pose (opts := ({[ "githubSlug" := VString "ab" ]} : object)).
    assert (Hslug : supplies (get opts "githubSlug") (Some "ab"))
      by (split; [reflexivity | discriminate]).
    destruct (githubstar_slug opts "ab" Hslug) as (Hplain & _).
    apply Hplain. reflexivity.
  - pose (opts := ({[ "githubSlug" := VString "a/b" ]} : object)).
    assert (Hslug : supplies (get opts "githubSlug") (Some "a/b"))
      by (split; [reflexivity | discriminate]).
    destruct (githubstar_slug opts "a/b" Hslug) as (_ & Hhalves).
    destruct (Hhalves "a" "b" EmptyString eq_refl eq_refl eq_refl (or_introl eq_refl))
      as (_ & Hgood).
    apply Hgood; discriminate.
Defined.

(** *** The query string of [nodeico] *)









(** *** Required fields *)

Lemma truthy_or_else (a b : value) :
  truthy (or_else a b) = truthy a || truthy b.
Proof. unfold or_else. destruct (truthy a) eqn:Ha; [exact Ha | reflexivity]. Qed.

(** Once the image is there, [badge] returns. *)
Lemma badge_not_missing (image alt url title : value) :
  truthy image = true ->
  reports_missing (badge (descriptor image alt url title)) = false.
Proof.
  intros Himage. unfold badge. rewrite get_descriptor_image, Himage. reflexivity.
Qed.

Create HintDb generators.

#[local] Hint Unfold pure shields npmversion npmdownloads daviddm daviddmdev
  nodeico saucelabsbm saucelabs travisci codeship coveralls codeclimate
  bithound waffle wishlist boostlab slackinscript slackin gabeacon
  googleplusone redditsubmit hackernewssubmit facebooklike facebookfollow
  twittertweet twitterfollow githubfollow githubstar quorafollow : generators.

(** Replaces the list of required fields of a named generator by its value. *)
Ltac look_up_fields :=
  match goal with
  | |- context [required_fields ?n] =>
      let fields := eval vm_compute in (required_fields n) in
      change (required_fields n) with fields
  end.

(** Case analysis on whether each required field is there. *)
Ltac decide_fields :=
  unfold first_missing; cbn [find effective field_name];
  rewrite ?truthy_or_else;
  repeat match goal with
    | |- context [truthy (get ?o ?k)] => destruct (truthy (get o k)) eqn:?
    | |- context [truthy (getenv ?e ?k)] => destruct (truthy (getenv e k)) eqn:?
    end;
  cbn [negb orb fmap option_fmap option_map].

(** Runs a generator through its checks with the case analysis at hand. *)
Ltac run_checks :=
  unfold or_else;
  repeat first
    [ match goal with H : truthy _ = _ |- _ => rewrite H end
    | progress cbn [negb andb orb] ].

(** What is left after the checks returns markup or throws an error of
    another kind. *)
Ltac after_checks :=
  repeat first
    [ reflexivity
    | apply badge_not_missing
    | apply truthy_string, append_nonempty_r; discriminate
    | match goal with
      | |- context [if ?c then _ else _] => destruct c eqn:?
      | |- context [match ?v with VUndefined => _ | _ => _ end] => destruct v
      end ].

(** C2, as the code has it.  Every exported generator with required fields
    checks them in the order of its parameter list, where
    [saucelabsAuthToken] and [facebookApplicationID] count as given when
    the configuration or the environment variable behind them holds a
    non-empty value: on the first one that is absent or empty it throws the
    missing-field error naming that field, and when none is absent or empty
    it does not report anything missing. *)
Theorem required_fields_checked (name : string) (f : generator)
    (env : environment) (opts : object) :
  In (name, f) module_exports ->
  required_fields name <> [] ->
  (forall field, first_missing env opts (required_fields name) = Some field ->
   f env opts = Throw (MissingFieldError field))
  /\ (first_missing env opts (required_fields name) = None ->
      reports_missing (f env opts) = false).
Proof.
  intros Hin Hfields. unfold module_exports in Hin.
  repeat (destruct Hin as [Heq | Hin];
          [injection Heq as <- <-;
           try (exfalso; apply Hfields; reflexivity); clear Hfields |]);
    [| | | | | | | | | | | | | | | | | | | | | | | | | | | | | | destruct Hin].
  1: { look_up_fields. decide_fields; (split; [intros field [= <-] | intros [=]]).
       - unfold pure, badge. run_checks. reflexivity.
       - unfold pure, badge. run_checks. reflexivity. }
  all: look_up_fields; decide_fields;
    (split; [intros field Hfield | intros Hnone]);
    try discriminate; try (injection Hfield as <-);
    autounfold with generators; run_checks; after_checks.
Qed.

Lemma required_fields_checked_witness :
  codeship ∅ = Throw (MissingFieldError "codeshipProjectUUID")
  /\ reports_missing
       (codeship {[ "codeshipProjectUUID" := VString "0f1e2d3c";
                    "codeshipProjectID" := VString "41" ]}) = false.
Proof.
  assert (Hin : In ("codeship", pure codeship) module_exports)
    by (unfold module_exports; repeat first [left; reflexivity | right]).
  assert (Hfields : required_fields "codeship" <> []) by discriminate.
  split.
  - destruct (required_fields_checked "codeship" (pure codeship) ∅ ∅ Hin Hfields)
      as (Hmissing & _).
    exact (Hmissing "codeshipProjectUUID" eq_refl).
  - destruct (required_fields_checked "codeship" (pure codeship) ∅
                {[ "codeshipProjectUUID" := VString "0f1e2d3c";
                   "codeshipProjectID" := VString "41" ]} Hin Hfields)
      as (_ & Hgiven).
    exact (Hgiven eq_refl).
Defined.

(** C2 as stated fails where the environment steps in: [saucelabs] is
    called without its required [saucelabsAuthToken], and returns a badge
    made with the token of the environment instead of throwing. *)
Lemma saucelabs_token_from_environment :
  let env : environment := {[ "SAUCELABS_AUTH_TOKEN" := "secret" ]} in
  let opts : object := {[ "saucelabsUsername" := VString "bevry" ]} in
  In ("saucelabs", saucelabs) module_exports
  /\ first_unset opts (required_fields "saucelabs") = Some "saucelabsAuthToken"
  /\ saucelabs env opts = Return (saucelabs_badge "bevry" "secret")
  /\ saucelabs env opts <> Throw (MissingFieldError "saucelabsAuthToken").
Proof.
  repeat split.
  - unfold module_exports. repeat first [left; reflexivity | right].
  - discriminate.
Qed.

(** *** The remaining examples of the specification, by evaluation *)

Example badge_without_image : badge ∅ = Throw (MissingFieldError "image").
Proof. reflexivity. Qed.

Example badge_with_alt :
  badge {[ "image" := VString "x.png"; "alt" := VString "A" ]}
  = Return ("<img src=" ++ dq ++ "x.png" ++ dq ++ " alt=" ++ dq ++ "A" ++ dq ++ " />").
Proof. reflexivity. Qed.

Example shields_default_color :
  shields {[ "left" := VString "build"; "right" := VString "passing" ]}
  = Return (img_tag "https://img.shields.io/badge/build-passing-yellow.svg" None).
Proof. reflexivity. Qed.

Example shields_given_color :
  shields {[ "left" := VString "build"; "right" := VString "passing";
             "color" := VString "green" ]}
  = Return (img_tag "https://img.shields.io/badge/build-passing-green.svg" None).
Proof. reflexivity. Qed.

Example npmversion_foo :
  npmversion {[ "npmPackageName" := VString "foo" ]}
  = Return (badge_markup "https://img.shields.io/npm/v/foo.svg" (Some "NPM version")
              (Some "https://npmjs.org/package/foo") (Some "View this project on NPM")).
Proof. reflexivity. Qed.

Example paypal_without_fields : reports_missing (paypal ∅) = true.
Proof. reflexivity. Qed.

Example escape_examples :
  escape_string "a b/c@d?e=f&g" = "a%20b/c@d%3Fe%3Df%26g"
  /\ qs_escape "a b/c@d?e=f&g" = "a%20b%2Fc%40d%3Fe%3Df%26g".
Proof. split; reflexivity. Qed.

Example githubstar_extra_parts :
  githubstar {[ "githubSlug" := VString "a/b/c" ]} = Return (star_button "a" "b").
Proof. reflexivity. Qed.

Example nodeico_rejects_true :
  nodeico {[ "npmPackageName" := VString "foo"; "nodeicoQueryString" := VBoolean true ]}
  = Throw InvalidTypeError.
Proof. reflexivity. Qed.

(** ** Properties beyond the claims *)

Create HintDb exports.

#[local] Hint Unfold pure badge shields npmversion npmdownloads daviddm daviddmdev
  nodeico saucelabsbm saucelabs travisci codeship coveralls codeclimate
  bithound waffle sixtydevstips patreon opencollective gratipay flattr paypal
  bitcoin crypto wishlist buymeacoffee liberapay thanksapp boostlab
  slackinscript slackin gabeacon googleplusone redditsubmit hackernewssubmit
  facebooklike facebookfollow twittertweet twitterfollow githubfollow
  githubstar quorafollow : exports.

(** Goes through the export table, one goal for each function. *)
Ltac each_export Hin :=
  unfold module_exports in Hin;
  repeat (destruct Hin as [Hin | Hin]; [injection Hin as <- <- |]);
  [.. | destruct Hin].

(** X1.  An exported function reads nothing of its argument but the
    parameters of its parameter list: two configurations that agree on
    them give the same completion, whatever else they hold. *)
Theorem result_depends_on_parameters (name : string) (f : generator)
    (env : environment) (opts opts' : object) :
  In (name, f) module_exports ->
  (forall k, In k (parameters name) -> get opts k = get opts' k) ->
  f env opts = f env opts'.
Proof.
  intros Hin Hagree. each_export Hin.
  all: match type of Hagree with
       | context [parameters ?n] =>
           let names := eval vm_compute in (parameters n) in
           change (parameters n) with names in Hagree
       end.
  all: autounfold with exports.
  all: repeat match goal with
         | |- context [get ?o ?k] =>
             constr_eq o opts;
             rewrite (Hagree k) by (repeat first [left; reflexivity | right])
         end.
  all: reflexivity.
Qed.

Lemma result_depends_on_parameters_witness :
  npmversion {[ "npmPackageName" := VString "foo" ]}
  = npmversion {[ "npmPackageName" := VString "foo"; "homepage" := VString "http://x" ]}.
Proof.
  apply (result_depends_on_parameters "npmversion" (pure npmversion) ∅).
  - unfold module_exports. repeat first [left; reflexivity | right].
  - intros k [<- | []]. reflexivity.
Defined.

(** X2.  Every function in the export table has been given a
    [badgeCategory], and it is one of the five categories. *)
Theorem every_export_has_a_category (name : string) (f : generator) :
  In (name, f) module_exports -> In (badgeCategory name) categories.
Proof.
  intros Hin. each_export Hin.
  all: unfold categories; repeat first [left; reflexivity | right].
Qed.

Lemma get_string_valued (opts : object) (k : string) :
  string_valued opts ->
  get opts k = VUndefined \/ exists s, get opts k = VString s.
Proof.
  intros Hopts. unfold get. destruct (opts !! k) as [v|] eqn:Hk; [|now left].
  apply Hopts in Hk. destruct v; try discriminate. right. eauto.
Qed.

Lemma badge_descriptor_returns (image alt url title : value) (e : exception) :
  truthy image = true -> badge (descriptor image alt url title) <> Throw e.
Proof.
  intros Himage. unfold badge. rewrite get_descriptor_image, Himage. discriminate.
Qed.

Create HintDb callers.

#[local] Hint Unfold pure shields npmversion npmdownloads daviddm daviddmdev
  nodeico saucelabsbm saucelabs travisci codeship coveralls codeclimate
  bithound waffle sixtydevstips patreon opencollective gratipay flattr paypal
  bitcoin crypto wishlist buymeacoffee liberapay thanksapp boostlab
  slackinscript slackin gabeacon googleplusone redditsubmit hackernewssubmit
  facebooklike facebookfollow twittertweet twitterfollow githubfollow
  githubstar quorafollow : callers.

(** Replaces every property read from a configuration of strings by
    [undefined], the empty string or a string with a first character, and
    every variable read from the environment likewise. *)
Ltac split_on_strings opts Hopts :=
  repeat match goal with
    | |- context [get ?o ?k] =>
        constr_eq o opts;
        let E := fresh "E" in
        destruct (get_string_valued opts k Hopts) as [E | [[|? ?] E]];
        rewrite E; clear E
    | |- context [getenv ?e ?k] =>
        unfold getenv; destruct (e !! k) as [[|? ?]|]
    end.

Ltac settle_throw :=
  repeat match goal with
    | |- Return _ = Throw _ -> _ => discriminate
    | |- Throw (Error _) = Throw _ -> _ =>
        intros [= <-]; first [left; reflexivity | right; split; reflexivity]
    | |- badge (descriptor _ _ _ _) = Throw _ -> _ =>
        intros Hthrow; exfalso; revert Hthrow; apply badge_descriptor_returns;
        reflexivity
    | |- context [if ?c then _ else _] => destruct c
    end.

(** X3.  On a configuration that holds nothing but strings, the only
    exceptions an exported function throws are the errors that report
    something missing and the invalid-slug error of [githubstar]. *)
Theorem only_documented_errors (name : string) (f : generator)
    (env : environment) (opts : object) (e : exception) :
  In (name, f) module_exports ->
  string_valued opts ->
  f env opts = Throw e ->
  reports_missing (Throw e) = true
  \/ (name = "githubstar" /\ e = InvalidSlugError).
Proof.
  intros Hin Hopts. each_export Hin.
  1: { unfold pure, badge. split_on_strings opts Hopts; cbn [truthy negb];
       settle_throw. }
  all: autounfold with callers; split_on_strings opts Hopts;
    cbn [truthy negb andb orb or_else typeof String.eqb Ascii.eqb Bool.eqb
         querystring_stringify toString];
    settle_throw.
Qed.

Lemma only_documented_errors_witness :
  reports_missing (Throw InvalidSlugError) = true
  \/ ("githubstar" = "githubstar" /\ InvalidSlugError = InvalidSlugError).
Proof.
  apply (only_documented_errors "githubstar" (pure githubstar) ∅
           {[ "githubSlug" := VString "ab" ]}).
  - unfold module_exports. repeat first [left; reflexivity | right].
  - apply map_Forall_singleton. reflexivity.
  - reflexivity.
Defined.

Ltac settle_return :=
  repeat match goal with
    | |- badge _ = Return _ -> _ => intros Hbadge; eexists; exact Hbadge
    | |- Throw _ = Return _ -> _ => discriminate
    | |- context [if ?c then _ else _] => destruct c; cbv beta iota zeta
    end.

(** X4.  Every export that is not tagged [badgeScript] returns, when it
    returns, markup made by [badge]. *)
Theorem inline_exports_return_badges (name : string) (f : generator)
    (env : environment) (opts : object) (markup : string) :
  In (name, f) module_exports ->
  badgeScript name = VUndefined ->
  f env opts = Return markup ->
  exists descriptor, badge descriptor = Return markup.
Proof.
  intros Hin Hscript. each_export Hin.
  all: try (vm_compute in Hscript; discriminate Hscript).
  all: autounfold with callers; cbv beta iota zeta; settle_return.
Qed.

Lemma inline_exports_return_badges_witness :
  exists descriptor,
    badge descriptor
    = Return (badge_markup "https://img.shields.io/npm/v/foo.svg" (Some "NPM version")
                (Some "https://npmjs.org/package/foo") (Some "View this project on NPM")).
Proof.
  apply (inline_exports_return_badges "npmversion" (pure npmversion) ∅
           {[ "npmPackageName" := VString "foo" ]}).
  - unfold module_exports. repeat first [left; reflexivity | right].
  - reflexivity.
  - reflexivity.
Defined.

Lemma get_insert_eq (opts : object) (k : string) (v : value) :
  get (<[k := v]> opts) k = v.
Proof. unfold get. now rewrite lookup_insert_eq. Qed.

Lemma get_insert_ne (opts : object) (k k' : string) (v : value) :
  k <> k' -> get (<[k := v]> opts) k' = get opts k'.
Proof. intros Hne. unfold get. now rewrite lookup_insert_ne. Qed.

(** Reads through the insertions made on a configuration. *)
Ltac read_inserted :=
  repeat first
    [ rewrite get_insert_eq
    | rewrite get_insert_ne by congruence ].

(** X6.  The six funding generators that take a link or a name: a link
    that is given makes the name irrelevant; a name alone works like the
    link built from it; and with neither the error names the name. *)
Theorem link_or_name_alternatives (a : alternative) (opts : object) :
  In a link_or_name ->
  (forall u, supplies (get opts (alternative_url a)) (Some u) ->
   forall v,
   alternative_generator a (<[alternative_name a := v]> opts)
   = alternative_generator a opts)
  /\ (forall n, supplies (get opts (alternative_url a)) None ->
      supplies (get opts (alternative_name a)) (Some n) ->
      alternative_generator a opts
      = alternative_generator a
          (<[alternative_url a := VString (alternative_prefix a ++ n)]> opts))
  /\ (supplies (get opts (alternative_url a)) None ->
      supplies (get opts (alternative_name a)) None ->
      alternative_generator a opts = Throw (MissingFieldError (alternative_name a))).
Proof.
  intros Hin. unfold link_or_name in Hin.
  repeat (destruct Hin as [<- | Hin]); [.. | destruct Hin];
    cbn [alternative_generator alternative_url alternative_name alternative_prefix];
    (split; [|split]).
  all: try (intros u Hurl v; autounfold with callers; read_inserted;
            read_fields; reflexivity).
  all: try (intros n Hurl Hname; autounfold with callers; read_inserted;
            read_fields; reflexivity).
  all: intros Hurl Hname; autounfold with callers; read_fields; reflexivity.
Qed.

Lemma link_or_name_alternatives_witness :
  patreon {[ "patreonUsername" := VString "bevry" ]}
  = patreon {[ "patreonURL" := VString "https://patreon.com/bevry";
               "patreonUsername" := VString "bevry" ]}.
Proof.
  pose (a := Alternative patreon "patreonURL" "patreonUsername" "https://patreon.com/").
  pose (opts := ({[ "patreonUsername" := VString "bevry" ]} : object)).
  assert (Hin : In a link_or_name) by (right; left; reflexivity).
  destruct (link_or_name_alternatives a opts Hin) as (_ & Hname & _).
  apply (Hname "bevry").
  - reflexivity.
  - split; [reflexivity | discriminate].
Defined.

(** X7.  [flattr]: a link that is given makes the user name and the code
    irrelevant; without a link the user name works like the link to the
    profile, even when a code is given too; the code alone works like the
    link to the thing; and with none of the three the error names the user
    name and the code. *)
Theorem flattr_alternatives (opts : object) :
  (forall u, supplies (get opts "flattrURL") (Some u) ->
   forall v w,
   flattr (<["flattrUsername" := v]> (<["flattrCode" := w]> opts)) = flattr opts)
  /\ (forall n, supplies (get opts "flattrURL") None ->
      supplies (get opts "flattrUsername") (Some n) ->
      flattr opts
      = flattr (<["flattrURL" := VString ("https://flattr.com/profile/" ++ n)]> opts))
  /\ (forall c, supplies (get opts "flattrURL") None ->
      supplies (get opts "flattrUsername") None ->
      supplies (get opts "flattrCode") (Some c) ->
      flattr opts
      = flattr (<["flattrURL" := VString ("https://flattr.com/thing/" ++ c)]> opts))
  /\ (supplies (get opts "flattrURL") None ->
      supplies (get opts "flattrUsername") None ->
      supplies (get opts "flattrCode") None ->
      flattr opts = Throw (Error "flattrUsername/flattrCode is missing")).
Proof.
  split; [|split; [|split]].
  - intros u Hurl v w. unfold flattr. read_inserted. read_fields. reflexivity.
  - intros n Hurl Hname. unfold flattr. read_inserted. read_fields. reflexivity.
  - intros c Hurl Hname Hcode. unfold flattr. read_inserted. read_fields. reflexivity.
  - intros Hurl Hname Hcode. unfold flattr. read_fields. reflexivity.
Qed.

Lemma flattr_alternatives_witness :
  flattr {[ "flattrUsername" := VString "balupton";
            "flattrCode" := VString "344188/balupton-on-Flattr" ]}
  = flattr {[ "flattrURL" := VString "https://flattr.com/profile/balupton";
              "flattrUsername" := VString "balupton";
              "flattrCode" := VString "344188/balupton-on-Flattr" ]}.
Proof.
  pose (opts := ({[ "flattrUsername" := VString "balupton";
                    "flattrCode" := VString "344188/balupton-on-Flattr" ]} : object)).
  destruct (flattr_alternatives opts) as (_ & Hname & _).
  apply (Hname "balupton").
  - reflexivity.
  - split; [reflexivity | discriminate].
Defined.

Lemma getenv_empty (k : string) : getenv ∅ k = VUndefined.
Proof. unfold getenv. now rewrite lookup_empty. Qed.

(** X8.  The two Facebook widgets, given their first field: an explicit
    application id makes the environment irrelevant; without one, the
    variable [FACEBOOK_APPLICATION_ID] works like passing its value as the
    application id; and with neither the error names
    [facebookApplicationID]. *)
Theorem facebook_application_id (widget : generator * string)
    (env : environment) (opts : object) (first : string) :
  In widget facebook_widgets ->
  supplies (get opts (snd widget)) (Some first) ->
  (forall id, supplies (get opts "facebookApplicationID") (Some id) ->
   forall env', fst widget env opts = fst widget env' opts)
  /\ (forall id, supplies (get opts "facebookApplicationID") None ->
      supplies (getenv env "FACEBOOK_APPLICATION_ID") (Some id) ->
      fst widget env opts
      = fst widget ∅ (<["facebookApplicationID" := VString id]> opts))
  /\ (supplies (get opts "facebookApplicationID") None ->
      supplies (getenv env "FACEBOOK_APPLICATION_ID") None ->
      fst widget env opts = Throw (MissingFieldError "facebookApplicationID")).
Proof.
  intros Hin Hfirst. unfold facebook_widgets in Hin.
  destruct Hin as [<- | [<- | []]]; cbn [fst snd] in *;
    (split; [|split]).
  all: try (intros id Hid env'; autounfold with callers; unfold or_else;
            read_fields; reflexivity).
  all: try (intros id Hid Henv; autounfold with callers; unfold or_else;
            read_inserted; rewrite getenv_empty; read_fields; reflexivity).
  all: intros Hid Henv; autounfold with callers; unfold or_else;
    read_fields; reflexivity.
Qed.

Lemma facebook_application_id_witness :
  facebooklike {[ "FACEBOOK_APPLICATION_ID" := "123" ]} {[ "homepage" := VString "http://x" ]}
  = facebooklike ∅ {[ "facebookApplicationID" := VString "123";
                      "homepage" := VString "http://x" ]}.
Proof.
  pose (env := ({[ "FACEBOOK_APPLICATION_ID" := "123" ]} : environment)).
  pose (opts := ({[ "homepage" := VString "http://x" ]} : object)).
  assert (Hin : In (facebooklike, "homepage") facebook_widgets) by (left; reflexivity).
  assert (Hfirst : supplies (get opts "homepage") (Some "http://x"))
    by (split; [reflexivity | discriminate]).
  destruct (facebook_application_id (facebooklike, "homepage") env opts "http://x"
              Hin Hfirst) as (_ & Henv & _).
  apply (Henv "123").
  - reflexivity.
  - split; [reflexivity | discriminate].
Defined.

(** X9.  [shields] is [badge] on the same configuration with the image
    made of [left], [right] and the colour: [alt], [url] and [title] pass
    through untouched.  The colour is yellow when [color] is missing; a
    [color] that is a string is used as it is, the empty one included. *)
Theorem shields_is_badge_with_image (opts : object) (left right : string) :
  supplies (get opts "left") (Some left) ->
  supplies (get opts "right") (Some right) ->
  (get opts "color" = VUndefined ->
   shields opts
   = badge (<["image" :=
                VString ("https://img.shields.io/badge/" ++ left ++ "-" ++ right
                         ++ "-yellow.svg")]> opts))
  /\ (forall color, get opts "color" = VString color ->
      shields opts
      = badge (<["image" :=
                   VString ("https://img.shields.io/badge/" ++ left ++ "-" ++ right
                            ++ "-" ++ color ++ ".svg")]> opts)).
Proof.
  intros Hleft Hright. split.
  - intros Hcolor. unfold shields, badge. rewrite Hcolor.
    rewrite get_descriptor_image, get_descriptor_alt, get_descriptor_url,
      get_descriptor_title.
    read_inserted. read_fields. reflexivity.
  - intros color Hcolor. unfold shields, badge. rewrite Hcolor.
    rewrite get_descriptor_image, get_descriptor_alt, get_descriptor_url,
      get_descriptor_title.
    read_inserted. read_fields. reflexivity.
Qed.

Lemma shields_is_badge_with_image_witness :
  shields {[ "left" := VString "build"; "right" := VString "passing";
             "color" := VString EmptyString; "url" := VString "http://ci" ]}
  = badge {[ "image" := VString "https://img.shields.io/badge/build-passing-.svg";
             "left" := VString "build"; "right" := VString "passing";
             "color" := VString EmptyString; "url" := VString "http://ci" ]}.
Proof.
  pose (opts := ({[ "left" := VString "build"; "right" := VString "passing";
                    "color" := VString EmptyString; "url" := VString "http://ci" ]}
                 : object)).
  assert (Hleft : supplies (get opts "left") (Some "build"))
    by (split; [reflexivity | discriminate]).
  assert (Hright : supplies (get opts "right") (Some "passing"))
    by (split; [reflexivity | discriminate]).
  destruct (shields_is_badge_with_image opts "build" "passing" Hleft Hright)
    as (_ & Hcolor).
  apply (Hcolor EmptyString). reflexivity.
Defined.

(** X10.  For [nodeico], a mapping as query string works like the string
    [querystring.stringify] makes of it, whatever that string is. *)
Theorem nodeico_mapping_as_string (opts : object) (props : list (string * value)) :
  nodeico (<["nodeicoQueryString" := VObject props]> opts)
  = nodeico (<["nodeicoQueryString" :=
                 VString (querystring_stringify (VObject props))]> opts).
Proof.
  unfold nodeico. read_inserted.
  cbn [typeof String.eqb Ascii.eqb Bool.eqb truthy negb andb].
  rewrite !andb_false_r. reflexivity.
Qed.

Lemma strip_breaks_single_line (skipping : bool) (s : string) :
  all_chars not_line_feed (strip_breaks skipping s) = true.
Proof.
  revert skipping. induction s as [|c s IH]; intros skipping; [reflexivity|].
  cbn [strip_breaks]. destruct (Ascii.eqb c "010") eqn:Hc; [apply IH|].
  destruct (skipping && is_space c); [apply IH|].
  cbn [all_chars]. unfold not_line_feed at 1. rewrite Hc. apply IH.
Qed.

(** X11.  The markup [quorafollow] returns is on one line: it has no line
    feed, not even one that came in through the configuration. *)
Theorem quorafollow_single_line (opts : object) (markup : string) :
  quorafollow opts = Return markup ->
  all_chars not_line_feed markup = true.
Proof.
  unfold quorafollow.
  repeat match goal with
    | |- context [if ?c then _ else _] => destruct c
    | |- context [match ?v with VUndefined => _ | _ => _ end] => destruct v
    end;
    cbv beta iota zeta; try discriminate;
    intros [= <-]; apply strip_breaks_single_line.
Qed.

Lemma strip_breaks_app (skipping : bool) (x y : string) :
  strip_breaks skipping (x ++ y)
  = strip_breaks skipping x ++ strip_breaks (end_state skipping x) y.
Proof.
  revert skipping. induction x as [|c x IH]; intros skipping; [reflexivity|].
  change (String c x ++ y) with (String c (x ++ y)).
  cbn [strip_breaks end_state].
  destruct (Ascii.eqb c "010"); [apply IH|].
  destruct (skipping && is_space c); [apply IH|].
  change (String c (strip_breaks false x) ++ strip_breaks (end_state false x) y)
    with (String c (strip_breaks false x ++ strip_breaks (end_state false x) y)).
  now rewrite IH.
Qed.

Lemma strip_breaks_plain_state (s : string) :
  all_chars not_line_feed s = true ->
  strip_breaks false s = s /\ end_state false s = false.
Proof.
  induction s as [|c s IH]; [now split|].
  cbn [all_chars]. intros [Hc Hs]%andb_true_iff.
  unfold not_line_feed in Hc. apply negb_true_iff in Hc.
  cbn [strip_breaks end_state andb]. rewrite Hc.
  destruct (IH Hs) as [-> ->]. now split.
Qed.

(** Text without line feeds, met outside a match, is left as it is ... *)
Lemma strip_breaks_plain (s : string) :
  all_chars not_line_feed s = true -> strip_breaks false s = s.
Proof. intros Hs. apply (strip_breaks_plain_state s Hs). Qed.

(** ... and leaves the scan outside a match. *)
Lemma end_state_plain (s : string) :
  all_chars not_line_feed s = true -> end_state false s = false.
Proof. intros Hs. apply (strip_breaks_plain_state s Hs). Qed.

Lemma all_chars_impl (p q : ascii -> bool) (s : string) :
  (forall c, p c = true -> q c = true) ->
  all_chars p s = true -> all_chars q s = true.
Proof.
  intros Hpq. induction s as [|c s IH]; [reflexivity|].
  cbn [all_chars]. intros [Hc Hs]%andb_true_iff.
  now rewrite (Hpq c Hc), (IH Hs).
Qed.

Lemma hex_digit_kept (n : N) : escape_keeps (N_of_ascii (hex_digit n)) = true.
Proof.
  destruct n as [|p]; [reflexivity|].
  do 5 (try destruct p as [p|p|]); reflexivity.
Qed.

Lemma escape_string_alphabet (s : string) :
  all_chars escaped_char (escape_string s) = true.
Proof.
  induction s as [|c s IH]; [reflexivity|].
  cbn [escape_string]. destruct (escape_keeps (N_of_ascii c)) eqn:Hc.
  - cbn [all_chars]. unfold escaped_char at 1. now rewrite Hc, IH.
  - unfold percent. cbn [all_chars]. unfold escaped_char at 1 2 3.
    rewrite !hex_digit_kept, IH. reflexivity.
Qed.

Lemma escaped_char_not_line_feed (c : ascii) :
  escaped_char c = true -> not_line_feed c = true.
Proof.
  destruct c as [[] [] [] [] [] [] [] []]; vm_compute; intros H;
    first [reflexivity | discriminate H].
Qed.

Lemma replace_dashes_single_line (s : string) :
  all_chars not_line_feed s = true ->
  all_chars not_line_feed (replace_dashes s) = true.
Proof.
  induction s as [|c s IH]; [reflexivity|].
  cbn [all_chars replace_dashes]. intros [Hc Hs]%andb_true_iff.
  rewrite (IH Hs), andb_true_r.
  destruct (Ascii.eqb c "-"); [reflexivity | exact Hc].
Qed.

(** Strips a template piece by piece. *)
Ltac strip_pieces :=
  repeat match goal with
    | |- context [strip_breaks ?b (?x ++ ?y)] =>
        rewrite (strip_breaks_app b x y);
        first
          [ rewrite (end_state_plain x) by assumption
          | let state := eval vm_compute in (end_state b x) in
            change (end_state b x) with state ]
    end;
  repeat match goal with
    | |- context [strip_breaks false ?x] =>
        rewrite (strip_breaks_plain x) by assumption
    end.

(** X12.  [quorafollow] with a user name and, when given, a real name that
    have no line feed in them returns the widget without the line breaks
    and indentation of its template; the real name defaults to the user
    name with its dashes turned into spaces, the code to [7N31XJs], and the
    code is escaped. *)
Theorem quorafollow_defaults (opts : object) (username : string)
    (realname code : option string) :
  supplies (get opts "quoraUsername") (Some username) ->
  supplies (get opts "quoraRealname") realname ->
  supplies (get opts "quoraCode") code ->
  all_chars not_line_feed username = true ->
  (forall r, realname = Some r -> all_chars not_line_feed r = true) ->
  quorafollow opts
  = Return (quora_markup username
              (default (replace_dashes username) realname)
              (escape_string (default "7N31XJs" code))).
Proof.
  intros Huser Hreal Hcode Hplain Hrealplain.
  assert (Hdashes := replace_dashes_single_line _ Hplain).
  destruct realname as [r|]; [assert (Hr := Hrealplain r eq_refl)|];
    destruct code as [c|];
    unfold quorafollow, or_else, escape; read_fields;
    cbv [default from_option id toString];
    match goal with
    | |- context [escape_string ?x] =>
        assert (Hcodeplain := all_chars_impl _ _ _ escaped_char_not_line_feed
                                (escape_string_alphabet x))
    end;
    f_equal; strip_pieces; reflexivity.
Qed.

Lemma quorafollow_single_line_witness :
  all_chars not_line_feed
    (quora_markup "Benjamin-Lupton" "Benjamin Lupton" "7N31XJs") = true.
Proof.
  apply (quorafollow_single_line {[ "quoraUsername" := VString "Benjamin-Lupton" ]}).
  reflexivity.
Defined.

Lemma quorafollow_defaults_witness :
  quorafollow {[ "quoraUsername" := VString "Benjamin-Lupton" ]}
  = Return (quora_markup "Benjamin-Lupton" "Benjamin Lupton" "7N31XJs").
Proof.
  pose (opts := ({[ "quoraUsername" := VString "Benjamin-Lupton" ]} : object)).
  apply (quorafollow_defaults opts "Benjamin-Lupton" None None).
  - split; [reflexivity | discriminate].
  - reflexivity.
  - reflexivity.
  - reflexivity.
  - intros r Hr. discriminate Hr.
Defined.

Lemma all_chars_excludes (p : ascii -> bool) (c : ascii) (s : string) :
  p c = false -> all_chars p s = true -> contains (String c EmptyString) s = false.
Proof.
  intros Hc. induction s as [|d s IH]; [reflexivity|].
  cbn [all_chars contains String.prefix]. intros [Hd Hs]%andb_true_iff.
  rewrite (IH Hs), orb_false_r.
  destruct (ascii_dec c d) as [<- | _]; [congruence | reflexivity].
Qed.

(** X13.  [githubfollow] puts the user name into the address of its
    button in escaped form only: what it inserts is made of the characters
    [escape] keeps and of percent signs, and has no double quote in it. *)
Theorem githubfollow_escapes_user (opts : object) (user : string) :
  supplies (get opts "githubUsername") (Some user) ->
  githubfollow opts = Return (follow_button (escape_string user))
  /\ all_chars escaped_char (escape_string user) = true
  /\ contains dq (escape_string user) = false.
Proof.
  intros Huser. split; [|split].
  - unfold githubfollow. read_fields. reflexivity.
  - apply escape_string_alphabet.
  - apply (all_chars_excludes escaped_char); [reflexivity | apply escape_string_alphabet].
Qed.

Lemma githubfollow_escapes_user_witness :
  githubfollow {[ "githubUsername" := VString (dq ++ "><script>") ]}
  = Return (follow_button "%22%3E%3Cscript%3E").
Proof.
  pose (opts := ({[ "githubUsername" := VString (dq ++ "><script>") ]} : object)).
  assert (Huser : supplies (get opts "githubUsername") (Some (dq ++ "><script>")))
    by (split; [reflexivity | discriminate]).
  destruct (githubfollow_escapes_user opts _ Huser) as (Hmarkup & _).
  exact Hmarkup.
Defined.

Lemma badge_descriptor_exists (image alt url title : value) :
  truthy image = true ->
  exists markup, badge (descriptor image alt url title) = Return markup.
Proof.
  intros Himage. unfold badge. rewrite get_descriptor_image, Himage. eauto.
Qed.

Ltac settle_success :=
  split;
  [ intros [markup Hmarkup];
    first [reflexivity | discriminate Hmarkup]
  | intros Hnone;
    first [ discriminate Hnone
          | eexists; reflexivity
          | apply badge_descriptor_exists; reflexivity ] ].

(** X5.  On a configuration that holds nothing but strings, an export with
    required fields other than [githubstar] returns markup exactly when
    none of its required fields is missing, the environment counted in. *)
Theorem returns_when_nothing_missing (name : string) (f : generator)
    (env : environment) (opts : object) :
  In (name, f) module_exports ->
  required_fields name <> [] ->
  name <> "githubstar" ->
  string_valued opts ->
  (exists markup, f env opts = Return markup)
  <-> first_missing env opts (required_fields name) = None.
Proof.
  intros Hin Hfields Hname Hopts. each_export Hin.
  all: try (exfalso; apply Hfields; reflexivity).
  all: try (exfalso; apply Hname; reflexivity).
  all: clear Hfields Hname; look_up_fields; unfold first_missing;
    cbn [find effective field_name].
  1: { unfold pure. split.
       - intros [markup Hmarkup]. unfold badge in Hmarkup.
         destruct (truthy (get opts "image")); [reflexivity | discriminate Hmarkup].
       - unfold badge. destruct (truthy (get opts "image")); [eauto | discriminate]. }
  all: autounfold with callers; split_on_strings opts Hopts;
    cbn [truthy negb andb orb or_else typeof String.eqb Ascii.eqb Bool.eqb
         querystring_stringify toString find fmap option_fmap option_map];
    settle_success.
Qed.

Lemma returns_when_nothing_missing_witness :
  (exists markup,
     gabeacon {[ "gaTrackingID" := VString "UA-1-2"; "githubSlug" := VString "bevry/badges" ]}
     = Return markup)
  <-> first_missing ∅ {[ "gaTrackingID" := VString "UA-1-2";
                         "githubSlug" := VString "bevry/badges" ]}
        (required_fields "gabeacon") = None.
Proof.
  apply (returns_when_nothing_missing "gabeacon" (pure gabeacon)).
  - unfold module_exports. repeat first [left; reflexivity | right].
  - discriminate.
  - discriminate.
  - apply map_Forall_insert_2; [reflexivity|].
    apply map_Forall_singleton. reflexivity.
Defined.

Lemma every_export_has_a_category_witness :
  In (badgeCategory "nodeico") categories.
Proof.
  apply (every_export_has_a_category "nodeico" (pure nodeico)).
  unfold module_exports. repeat first [left; reflexivity | right].
Defined.
